(** * The artificial horizon widget of ros_groundstation

    A shallow embedding of [src/ros_groundstation/artificial_horizon.py].

    The widget never reads anything back from its [QPainter]: every method of
    the painter it calls returns nothing.  A renderer is therefore embedded as
    the ordered list of painter calls it issues (its trace), and the painter
    itself as a state (world transform, pen, brush, painted primitives) that
    a trace is run on.

    Numbers.  Python [int]s are [Z].  Python [float]s are embedded as exact
    rationals [Q]; the world transform of the painter needs sines and
    cosines and lives in [R].  The widget is Python 2 code (implicit relative
    import, [rospy]): [/] between two [int]s is the floor division, written
    [(a / b)%Z] here, and [-a / b] is [((- a) / b)%Z]. *)

From Stdlib Require Import ZArith QArith Qabs Qround Qreals List String Ascii.
From Stdlib Require Import DecimalString Bool Lia Reals Lra Lqa.
Import ListNotations.


(** ** Python built-ins used by the widget *)

Module Py.

(** [range(a, b)]: the integers [a], [a+1], ..., [b-1]. *)
Definition range (a b : Z) : list Z :=
  map (fun k => (a + Z.of_nat k)%Z) (seq 0 (Z.to_nat (b - a))).

(** [str(i)] on an [int]. *)
Definition str (i : Z) : string := NilZero.string_of_int (Z.to_int i).

(** [len(s)] on a [str]. *)
Definition len (s : string) : Z := Z.of_nat (String.length s).

(** [abs(i)] on an [int]. *)
Definition abs (i : Z) : Z := Z.abs i.

(** [int(x)] on a [float]: truncation toward zero. *)
Definition int (x : Q) : Z := Z.quot (Qnum x) (Zpos (Qden x)).

(** [math.floor(x)]. *)
Definition floor (x : Q) : Z := Qfloor x.

(** A [dict] with [int] keys, written as a literal: the first binding of a
    key is the one a lookup finds (the literals of the widget have no
    duplicate key). *)
Definition dict (V : Type) : Type := list (Z * V).

Fixpoint get {V : Type} (d : dict V) (k : Z) : option V :=
  match d with
  | [] => None
  | (k', v) :: d' => if (k =? k')%Z then Some v else get d' k
  end.

(** [x < y] and [x <= y] on floats. *)
Definition ltb (x y : Q) : bool := (Qnum x * QDen y <? Qnum y * QDen x)%Z.
Definition leb (x y : Q) : bool := Qle_bool x y.

(** The chained comparisons [a < x < b] and [a <= x <= b]. *)
Definition lt_lt (a x b : Q) : bool := ltb a x && ltb x b.
Definition le_le (a x b : Q) : bool := leb a x && leb x b.

End Py.

(** ** The Qt value types the widget builds *)

Module Qt.

Inductive GlobalColor : Type := red | green | white | yellow | black.

Inductive QColor : Type :=
| Global (c : GlobalColor)
| Rgba (r g b a : Z).

(** [QColor(r, g, b)] is opaque: alpha 255. *)
Definition QColor3 (r g b : Z) : QColor := Rgba r g b 255.

Inductive BrushStyle : Type := SolidPattern.

Record QBrush : Type := mkBrush { brush_color : QColor; brush_style : BrushStyle }.

(** [QBrush(color)]: the style defaults to [SolidPattern]. *)
Definition QBrush1 (c : QColor) : QBrush := mkBrush c SolidPattern.

Inductive PenStyle : Type := SolidLine.
Inductive PenCapStyle : Type := SquareCap | RoundCap.

Record QPen : Type :=
  mkPen { pen_brush : QBrush; pen_width : Z; pen_style : PenStyle; pen_cap : PenCapStyle }.

(** [QPen(brush, width, style)]: the cap defaults to [SquareCap]. *)
Definition QPen3 (b : QBrush) (w : Z) (s : PenStyle) : QPen := mkPen b w s SquareCap.

(** [setPen(color)]: a solid pen of width 1 of that colour. *)
Definition QPen1 (c : QColor) : QPen := mkPen (QBrush1 c) 1 SolidLine SquareCap.

Definition pen_color (p : QPen) : QColor := brush_color (pen_brush p).

(** Points and rectangles, with the coordinates the widget passes. *)
Record QPoint : Type := mkPoint { px : Q; py : Q }.

Record QRectF : Type := mkRect { rx : Q; ry : Q; rw : Q; rh : Q }.

(** [QRectF(topLeft, bottomRight)]. *)
Definition QRectF2 (p1 p2 : QPoint) : QRectF :=
  mkRect (px p1) (py p1) (px p2 - px p1) (py p2 - py p1).

Inductive AlignmentFlag : Type := AlignCenter.

(** One call of a [QPainter] method. *)
Inductive PainterCall : Type :=
| setPen (p : QPen)
| setBrush (b : QBrush)
| translate (dx dy : Q)
| rotate (a : Z)
| fillRect (r : QRectF) (b : QBrush)
| drawLine (x1 y1 x2 y2 : Q)
| drawTextRect (r : QRectF) (flags : AlignmentFlag) (text : string)
| drawTextPoint (p : QPoint) (text : string)
| drawTextOption (r : QRectF) (text : string) (o : AlignmentFlag)
| drawPolygon (poly : list QPoint)
| drawConvexPolygon (poly : list QPoint)
| drawArc (r : QRectF) (a alen : Z).

Definition Trace : Type := list PainterCall.

(** The calls that change the coordinate system. *)
Definition is_transform (c : PainterCall) : bool :=
  match c with
  | translate _ _ | rotate _ => true
  | _ => false
  end.

Definition is_convex_polygon (c : PainterCall) : bool :=
  match c with
  | drawConvexPolygon _ => true
  | _ => false
  end.

(** *** The painter state

    The world transform is the affine part of Qt's [QTransform]: a point
    [(x, y)] is mapped to [(m11*x + m21*y + dx, m12*x + m22*y + dy)].
    [translate] and [rotate] change the coordinate system, that is, they
    multiply the transform on the left, as [QTransform::translate] and
    [QTransform::rotate] do. *)

Record QTransform : Type :=
  mkTransform { m11 : R; m12 : R; m21 : R; m22 : R; m_dx : R; m_dy : R }.

Definition deg2rad (a : Z) : R := (IZR a * PI / 180)%R.

Definition transform_translate (dx dy : R) (t : QTransform) : QTransform :=
  mkTransform (m11 t) (m12 t) (m21 t) (m22 t)
              (m_dx t + (dx * m11 t + dy * m21 t))%R
              (m_dy t + (dy * m22 t + dx * m12 t))%R.

Definition transform_rotate (a : Z) (t : QTransform) : QTransform :=
  let sina := sin (deg2rad a) in
  let cosa := cos (deg2rad a) in
  mkTransform (cosa * m11 t + sina * m21 t)%R
              (cosa * m12 t + sina * m22 t)%R
              (- sina * m11 t + cosa * m21 t)%R
              (- sina * m12 t + cosa * m22 t)%R
              (m_dx t) (m_dy t).

(** A painted primitive, with the pen and brush in force when it was
    painted. *)
Record Painted : Type :=
  mkPainted { painted_call : PainterCall; painted_pen : QPen; painted_brush : QBrush }.

Record QPainter : Type :=
  mkPainter { worldTransform : QTransform;
              pen : QPen;
              brush : QBrush;
              painted : list Painted }.

(** The effect of one call on the painter. *)
Definition step (p : QPainter) (c : PainterCall) : QPainter :=
  match c with
  | setPen pn => mkPainter (worldTransform p) pn (brush p) (painted p)
  | setBrush b => mkPainter (worldTransform p) (pen p) b (painted p)
  | translate dx dy =>
      mkPainter (transform_translate (Q2R dx) (Q2R dy) (worldTransform p))
                (pen p) (brush p) (painted p)
  | rotate a =>
      mkPainter (transform_rotate a (worldTransform p)) (pen p) (brush p) (painted p)
  | _ =>
      mkPainter (worldTransform p) (pen p) (brush p)
                (painted p ++ [mkPainted c (pen p) (brush p)])
  end.

Definition run (t : Trace) (p : QPainter) : QPainter := fold_left step t p.

(** What one call does to the world transform. *)
Definition apply_transform (c : PainterCall) (m : QTransform) : QTransform :=
  match c with
  | translate dx dy => transform_translate (Q2R dx) (Q2R dy) m
  | rotate a => transform_rotate a m
  | _ => m
  end.

Definition transform_of (t : Trace) (m : QTransform) : QTransform :=
  fold_left (fun m c => apply_transform c m) t m.

(** A trace without [translate] and [rotate]. *)
Definition no_transform (t : Trace) : bool :=
  forallb (fun c => negb (is_transform c)) t.

End Qt.

(** ** The telemetry subscribers the widget reads

    [map_subscribers] is outside this file; the widget reads class
    attributes of five subscribers.  Angles arrive in radians and the widget
    multiplies them by [180/pi]: that product (not being rational) is what a
    snapshot holds, under a name ending in [_deg]. *)

Record StateSub : Type :=
  { phi_deg : Q;      (* StateSub.phi * (180.0 / math.pi) *)
    theta_deg : Q;    (* StateSub.theta * (180.0 / math.pi) *)
    Va : Q;
    alt : Q;
    chi_deg : Q       (* StateSub.chi * (180.0 / math.pi) *) }.

Record GPSDataSub : Type := { gps_numSat : Z }.

Record ConComSub : Type := { concom_enabled : bool; Va_c : Q; h_c : Q }.

Record ConInSub : Type :=
  { conin_enabled : bool;
    theta_c_deg : Q   (* math.degrees(ConInSub.theta_c) *) }.

Record BatterySub : Type := { battery_enabled : bool; voltage : Q; voltage_percent : Q }.

Record Subscribers : Type :=
  { state : StateSub;
    gps : GPSDataSub;
    concom : ConComSub;
    conin : ConInSub;
    battery : BatterySub }.

(** ** The widget *)

Record ArtificialHorizon : Type :=
  { height : Z;
    width : Z;
    roll : Z;
    pitch : Z;
    speed : Z;
    altitude : Z;
    heading : Z;
    numSat : Z;
    pitchInterval : Q }.

Import Qt.
Local Coercion inject_Z : Z >-> Q.
Local Open Scope Q_scope.
Local Open Scope string_scope.
Local Open Scope list_scope.

Definition initUI : ArtificialHorizon :=
  {| height := 600; width := 600;
     roll := 0; pitch := 0; speed := 0; altitude := 0; heading := 0; numSat := 0;
     pitchInterval := 0.013 |}.

Definition resizeEvent (self : ArtificialHorizon) (newWidth newHeight : Z) : ArtificialHorizon :=
  {| height := newHeight; width := newWidth;
     roll := roll self; pitch := pitch self; speed := speed self;
     altitude := altitude self; heading := heading self; numSat := numSat self;
     pitchInterval := pitchInterval self |}.

(** Lines 91-96: the attributes are overwritten from the subscribers. *)
Definition extract (self : ArtificialHorizon) (subs : Subscribers) : ArtificialHorizon :=
  {| height := height self; width := width self;
     roll := Py.floor (phi_deg (state subs));
     pitch := Py.floor (theta_deg (state subs));
     speed := Py.floor (Va (state subs));
     altitude := Py.floor (alt (state subs));
     heading := (Py.floor (chi_deg (state subs)) mod 360)%Z;
     numSat := gps_numSat (gps subs);
     pitchInterval := pitchInterval self |}.

(** *** Satellite count *)

Definition drawNumSatellites (self : ArtificialHorizon) : Trace :=
  let p1 := mkPoint 0 0 in
  let p2 := mkPoint (width self * 0.25) (height self * 0.1) in
  let rect := QRectF2 p1 p2 in
  [ if (numSat self <? 4)%Z
    then setPen (QPen3 (QBrush1 (Global red)) 2 SolidLine)
    else setPen (QPen3 (QBrush1 (Global green)) 2 SolidLine);
    drawTextRect rect AlignCenter ("GPS: " ++ Py.str (numSat self) ++ " satellites")%string ].

(** *** Sky and ground *)

Definition drawSky (self : ArtificialHorizon) : Trace :=
  let brush := mkBrush (QColor3 38 89 242) SolidPattern in
  [ fillRect (mkRect 0 0 (width self) (height self)) brush ].

Definition drawGround (self : ArtificialHorizon) : Trace :=
  let brush := mkBrush (QColor3 84 54 10) SolidPattern in
  [ fillRect (mkRect (-300) (height self / 2)%Z (width self + 600)%Z
                     (height self * (0.5 + pitchInterval self * 180)))
             brush;
    setPen (mkPen (QBrush1 (Global white)) 2 SolidLine RoundCap);
    drawLine (-300) (height self / 2)%Z (width self + 600)%Z (height self / 2)%Z ].

(** *** Heading tape *)

Definition directions : Py.dict string :=
  [ (0, "N"); (45, "NE"); (90, "E"); (135, "SE");
    (180, "S"); (215, "SW"); (270, "W"); (315, "NW") ]%Z.

(** Lines 180-182: a candidate is wrapped into [0, 360). *)
Definition wrap360 (i : Z) : Z :=
  let i := if (i <? 0)%Z then (i + 360)%Z else i in
  (i mod 360)%Z.

(** Lines 183-185: the label of a wrapped candidate. *)
Definition heading_text (i : Z) : string :=
  let text := Py.str i in
  match Py.get directions i with
  | Some d => d
  | None => text
  end.

(** The body of the loop of lines 176-187 for the candidate [i]. *)
Definition heading_tick (self : ArtificialHorizon) (i : Z) : Trace :=
  let boxHeight := height self * 0.1 in
  let scale := 0.01 in
  if (i mod 10 =? 0)%Z then
    let x := width self * 0.5 - ((heading self - i)%Z * scale * width self) in
    let y := height self - boxHeight in
    let i := wrap360 i in
    let text := heading_text i in
    [ drawLine x y x (y + 5);
      drawTextPoint (mkPoint (x + 7 - (8 * Py.len text)%Z) (y + 22)) text ]
  else [].

Definition degree_sign : string :=
  String (ascii_of_nat 194) (String (ascii_of_nat 176) EmptyString).

Definition drawHeadingIndicator (self : ArtificialHorizon) : Trace :=
  let boxWidth := width self * 1.0 in
  let boxHeight := height self * 0.1 in
  let brush := QBrush1 (Rgba 100 100 100 200) in
  [ setPen (QPen3 (QBrush1 (Global yellow)) 2 SolidLine);
    fillRect (mkRect ((width self - boxWidth) / 2) (height self - boxHeight) boxWidth boxHeight)
             brush ]
  ++ flat_map (heading_tick self) (Py.range (heading self - 49) (heading self + 49))
  ++
  let p1 := mkPoint (width self * 0.46) (height self) in
  let p2 := mkPoint (width self * 0.46) (height self - boxHeight * 0.9) in
  let p3 := mkPoint (width self * 0.50) (height self - boxHeight) in
  let p4 := mkPoint (width self * 0.54) (height self - boxHeight * 0.9) in
  let p5 := mkPoint (width self * 0.54) (height self) in
  let poly := [p1; p2; p3; p4; p5] in
  let rect := QRectF2 p1 p4 in
  [ setBrush (QBrush1 (Global black));
    setPen (mkPen (QBrush1 (Rgba 0 0 0 0)) 2 SolidLine RoundCap);
    drawPolygon poly;
    setPen (mkPen (QBrush1 (QColor3 255 255 0)) 2 SolidLine RoundCap);
    drawTextRect rect AlignCenter (Py.str (heading self) ++ degree_sign)%string ].

(** *** Speed and altitude tapes *)

(** The body of the loop of lines 213-219 for the candidate [i]. *)
Definition airspeed_tick (self : ArtificialHorizon) (i : Z) : Trace :=
  let boxWidth := width self * 0.13 in
  let scale := 0.01 in
  if ((i mod 10 =? 0) && (i >=? 0))%Z then
    let x := boxWidth in
    let y := height self * 0.5 + ((speed self - i)%Z * scale * height self) in
    let text := Py.str i in
    [ drawLine (x - 5) y x y;
      drawTextPoint (mkPoint (x - 10 - (8 * Py.len text)%Z) (y + 5)) text ]
  else [].

(** Line 222: where the commanded speed falls on the tape. *)
Definition va_c_y (self : ArtificialHorizon) (subs : Subscribers) : Q :=
  let scale := 0.01 in
  height self * 0.5 + (((speed self : Q) - Va_c (concom subs)) * scale * height self).

(** Lines 220-231: the commanded-speed triangle. *)
Definition airspeed_command (self : ArtificialHorizon) (subs : Subscribers) : Trace :=
  let boxWidth := width self * 0.13 in
  let boxHeight := height self * 0.6 in
  if concom_enabled (concom subs) then
    let va_c_y := va_c_y self subs in
    if Py.le_le ((height self - boxHeight) / 2) va_c_y ((height self + boxHeight) / 2) then
      let triangle_h_dim := width self * 0.02 in
      let triangle_v_dim := height self * 0.01 in
      let triangle_right := boxWidth + triangle_h_dim in
      [ drawConvexPolygon
          [ mkPoint boxWidth va_c_y;
            mkPoint triangle_right (triangle_v_dim + va_c_y);
            mkPoint triangle_right (- triangle_v_dim + va_c_y) ] ]
    else []
  else [].

Definition drawAirspeedIndicator (self : ArtificialHorizon) (subs : Subscribers) : Trace :=
  let boxWidth := width self * 0.13 in
  let boxHeight := height self * 0.6 in
  let brush := QBrush1 (Rgba 100 100 100 200) in
  [ setPen (QPen3 (QBrush1 (Global yellow)) 2 SolidLine);
    fillRect (mkRect 0 ((height self - boxHeight) / 2) boxWidth boxHeight) brush ]
  ++ flat_map (airspeed_tick self) (Py.range (speed self - 29) (speed self + 29))
  ++ airspeed_command self subs
  ++
  let p1 := mkPoint 0 (height self * 0.46) in
  let p2 := mkPoint (boxWidth * 0.9) (height self * 0.46) in
  let p3 := mkPoint boxWidth (height self * 0.5) in
  let p4 := mkPoint (boxWidth * 0.9) (height self * 0.54) in
  let p5 := mkPoint 0 (height self * 0.54) in
  let poly := [p1; p2; p3; p4; p5] in
  let rect := QRectF2 p1 p4 in
  [ setBrush (QBrush1 (Global black));
    setPen (mkPen (QBrush1 (Rgba 0 0 0 0)) 2 SolidLine RoundCap);
    drawPolygon poly;
    setPen (mkPen (QBrush1 (QColor3 255 255 0)) 2 SolidLine RoundCap);
    drawTextRect rect AlignCenter (Py.str (speed self) ++ " m/s")%string;
    drawTextPoint (mkPoint 5 ((height self - boxHeight) / 2 - 5)) "Airspeed (m/s IAS)" ].

(** The body of the loop of lines 260-266 for the candidate [i]. *)
Definition altitude_tick (self : ArtificialHorizon) (i : Z) : Trace :=
  let boxWidth := width self * 0.13 in
  let scale := 0.01 in
  if (i mod 10 =? 0)%Z then
    let x := width self - boxWidth in
    let y := height self * 0.5 + ((altitude self - i)%Z * scale * height self) in
    let text := Py.str i in
    [ drawLine x y (x + 5) y;
      drawTextPoint (mkPoint (x + 10) (y + 5)) text ]
  else [].

(** Line 271: where the commanded altitude falls on the tape. *)
Definition alt_c_y (self : ArtificialHorizon) (subs : Subscribers) : Q :=
  let scale := 0.01 in
  height self * 0.5 + (((altitude self : Q) - h_c (concom subs)) * scale * height self).

(** Lines 269-280: the commanded-altitude triangle. *)
Definition altitude_command (self : ArtificialHorizon) (subs : Subscribers) : Trace :=
  let boxWidth := width self * 0.13 in
  let boxHeight := height self * 0.6 in
  if concom_enabled (concom subs) then
    let alt_c_y := alt_c_y self subs in
    if Py.le_le ((height self - boxHeight) / 2) alt_c_y ((height self + boxHeight) / 2) then
      let triangle_h_dim := width self * 0.02 in
      let triangle_v_dim := height self * 0.01 in
      let triangle_left := width self - boxWidth - triangle_h_dim in
      [ drawConvexPolygon
          [ mkPoint (width self - boxWidth) alt_c_y;
            mkPoint triangle_left (triangle_v_dim + alt_c_y);
            mkPoint triangle_left (- triangle_v_dim + alt_c_y) ] ]
    else []
  else [].

Definition drawAltitudeIndicator (self : ArtificialHorizon) (subs : Subscribers) : Trace :=
  let boxWidth := width self * 0.13 in
  let boxHeight := height self * 0.6 in
  let brush := QBrush1 (Rgba 100 100 100 200) in
  [ setPen (QPen3 (QBrush1 (Global yellow)) 2 SolidLine);
    fillRect (mkRect (width self - boxWidth) ((height self - boxHeight) / 2) boxWidth boxHeight)
             brush ]
  ++ flat_map (altitude_tick self) (Py.range (altitude self - 29) (altitude self + 29))
  ++ [ setBrush (QBrush1 (Global yellow)) ]
  ++ altitude_command self subs
  ++
  let p1 := mkPoint (width self) (height self * 0.46) in
  let p2 := mkPoint (width self - boxWidth * 0.9) (height self * 0.46) in
  let p3 := mkPoint (width self - boxWidth) (height self * 0.5) in
  let p4 := mkPoint (width self - boxWidth * 0.9) (height self * 0.54) in
  let p5 := mkPoint (width self) (height self * 0.54) in
  let poly := [p1; p2; p3; p4; p5] in
  let text := (Py.str (altitude self) ++ " m")%string in
  let rect := QRectF2 p1 p4 in
  [ setBrush (QBrush1 (Global black));
    setPen (QPen3 (QBrush1 (Rgba 0 0 0 0)) 2 SolidLine);
    drawPolygon poly;
    setPen (QPen3 (QBrush1 (QColor3 255 255 0)) 2 SolidLine);
    drawTextRect rect AlignCenter text;
    drawTextPoint (mkPoint (width self - boxWidth + 5) ((height self - boxHeight) / 2 - 5))
                  "Altitude" ].

(** *** Turn indicator *)

Definition angles : list Z := [-60; -45; -30; -20; -10; 0; 10; 20; 30; 45; 60]%Z.

(** Rotation of the coordinate system by [angle] degrees about a centre:
    the triple of lines 320-322 (and 328-330, 339-341, 345-347). *)
Definition rotate_about (xCenter yCenter : Q) (angle : Z) : Trace :=
  [ translate xCenter yCenter; rotate angle; translate (- xCenter) (- yCenter) ].

Definition drawTurnIndicator (self : ArtificialHorizon) : Trace :=
  let radius := width self * 0.3 in
  let yOffset := height self * 0.10 in
  let height1 := height self * 0.02 in
  let x : Q := (width self / 2)%Z in
  let y := yOffset in
  let x2 := x in
  let y2 := y - height1 in
  let x3 := x in
  let y3 := y2 - 5 in
  let xCenter : Q := (width self / 2)%Z in
  let yCenter := radius + yOffset in
  [ setBrush (QBrush1 (Global white));
    setPen (mkPen (QBrush1 (Global white)) 2 SolidLine RoundCap);
    drawArc (mkRect (width self * 0.5 - radius) yOffset (2 * radius) (2 * radius))
            (16 * 30) (16 * 120) ]
  ++ flat_map
       (fun angle =>
          rotate_about xCenter yCenter angle
          ++ (let text := Py.str angle in
              [ drawLine x y x2 y2;
                drawTextPoint (mkPoint (x3 - (4 * Py.len text)%Z) y3) text ])
          ++ rotate_about xCenter yCenter (- angle))
       angles
  ++
  let height2 := height self * 0.025 in
  let poly := [ mkPoint x y;
                mkPoint (x - height2 / 2) (y + height2);
                mkPoint (x + height2 / 2) (y + height2) ] in
  rotate_about xCenter yCenter (roll self)
  ++ [ drawPolygon poly ]
  ++ rotate_about xCenter yCenter (- roll self).

(** *** Aircraft symbol *)

Definition drawAircraftSymbol (self : ArtificialHorizon) : Trace :=
  let brightYellow := QColor3 255 255 0 in
  let widthFraction := 0.10 in
  let heightFraction := 0.05 in
  let poly :=
    [ mkPoint (width self * 0.5) (height self * 0.5);
      mkPoint (width self * (0.5 + widthFraction / 2.0)) (height self * (0.5 + heightFraction));
      mkPoint (width self * 0.5) (height self * (0.5 + heightFraction / 2.0));
      mkPoint (width self * (0.5 - widthFraction / 2.0)) (height self * (0.5 + heightFraction)) ] in
  let space := 0.25 in
  let length := 0.1 in
  [ setPen (mkPen (QBrush1 brightYellow) 5 SolidLine RoundCap);
    setBrush (QBrush1 brightYellow);
    drawPolygon poly;
    drawLine (width self * space) (height self / 2)%Z
             (width self * (space + length)) (height self / 2)%Z;
    drawLine (width self * (1 - space - length)) (height self / 2)%Z
             (width self * (1 - space)) (height self / 2)%Z ].

(** *** Pitch ladder *)

Definition minHeight (self : ArtificialHorizon) : Q := 0.15 - pitch self * pitchInterval self.
Definition maxHeight (self : ArtificialHorizon) : Q := 0.85 - pitch self * pitchInterval self.

(** The test [minHeight < height < maxHeight] of lines 379, 387 and 396. *)
Definition in_window (self : ArtificialHorizon) (h : Q) : bool :=
  Py.lt_lt (minHeight self) h (maxHeight self).

(** Line 378 and line 386: the height fractions of the two lines of rung [i]. *)
Definition major_height (self : ArtificialHorizon) (i : Z) : Q :=
  0.5 - pitchInterval self * 10 * i.

Definition minor_height (self : ArtificialHorizon) (i : Z) : Q :=
  major_height self i - pitchInterval self * 5.

(** Lines 377-384. *)
Definition major_marker (self : ArtificialHorizon) (i : Z) : Trace :=
  let text := Py.str (10 * Py.abs i) in
  let h := major_height self i in
  if in_window self h then
    [ drawLine (width self * 0.4) (height self * h) (width self * 0.6) (height self * h);
      drawTextPoint (mkPoint (width self * 0.6 + 5) (height self * h + 5)) text;
      drawTextPoint (mkPoint (width self * 0.4 - 22) (height self * h + 5)) text ]
  else [].

(** Lines 386-390. *)
Definition minor_marker (self : ArtificialHorizon) (i : Z) : Trace :=
  let h := minor_height self i in
  if in_window self h then
    [ drawLine (width self * 0.45) (height self * h) (width self * 0.55) (height self * h) ]
  else [].

(** Line 395: the height fraction of the commanded pitch. *)
Definition command_height (self : ArtificialHorizon) (subs : Subscribers) : Q :=
  let pitch_command := theta_c_deg (conin subs) in
  0.5 - pitchInterval self * pitch_command.

Definition command_pen : QPen := mkPen (QBrush1 (Global yellow)) 4 SolidLine RoundCap.
Definition ladder_pen : QPen := mkPen (QBrush1 (Global white)) 2 SolidLine RoundCap.

(** Lines 396-401. *)
Definition command_marker (self : ArtificialHorizon) (subs : Subscribers) : Trace :=
  let h := command_height self subs in
  if in_window self h then
    [ drawLine (width self * 0.4) (height self * h) (width self * 0.6) (height self * h);
      drawTextPoint (mkPoint (width self * 0.6 + 5) (height self * h + 5)) "<";
      drawTextPoint (mkPoint (width self * 0.4 - 22) (height self * h + 5)) ">" ]
  else [].

(** Lines 392-402. *)
Definition pitch_command (self : ArtificialHorizon) (subs : Subscribers) : Trace :=
  if conin_enabled (conin subs) then
    [ setPen command_pen ] ++ command_marker self subs ++ [ setPen ladder_pen ]
  else [].

Definition drawPitchIndicator (self : ArtificialHorizon) (subs : Subscribers) : Trace :=
  flat_map (fun i => major_marker self i ++ minor_marker self i) (Py.range (-9) 9)
  ++ pitch_command self subs.

(** *** Output indicator

    The body of [drawOutputIndicator] starts with a bare [return]; what
    follows it is kept, as statements that are never reached. *)

Inductive Stmt : Type :=
| Return
| Calls (t : Trace).

Fixpoint exec (body : list Stmt) : Trace :=
  match body with
  | [] => []
  | Return :: _ => []
  | Calls t :: rest => t ++ exec rest
  end.

Definition output_tick (self : ArtificialHorizon) (i : Z) : Trace :=
  let boxWidth := width self * 0.13 in
  let scale := 0.01 in
  if (i mod 10 =? 0)%Z then
    let x := width self - boxWidth in
    let y := height self * 0.5 + ((altitude self - i)%Z * scale * height self) in
    let text := Py.str i in
    [ drawLine x y (x + 5) y;
      drawTextPoint (mkPoint (x + 10) (y + 5)) text ]
  else [].

Definition drawOutputIndicator (self : ArtificialHorizon) : Trace :=
  let boxWidth := width self * 0.13 in
  let boxHeight := height self * 0.6 in
  let brush := QBrush1 (Rgba 100 100 100 200) in
  let p1 := mkPoint (width self) (height self * 0.46) in
  let p2 := mkPoint (width self - boxWidth * 0.9) (height self * 0.46) in
  let p3 := mkPoint (width self - boxWidth) (height self * 0.5) in
  let p4 := mkPoint (width self - boxWidth * 0.9) (height self * 0.54) in
  let p5 := mkPoint (width self) (height self * 0.54) in
  let poly := [p1; p2; p3; p4; p5] in
  let text := (Py.str (altitude self) ++ " ft")%string in
  let rect := QRectF2 p1 p4 in
  exec
    [ Return;
      Calls [ setPen (QPen3 (QBrush1 (Global yellow)) 2 SolidLine);
              fillRect (mkRect (width self - boxWidth) ((height self - boxHeight) / 2)
                               boxWidth boxHeight) brush ];
      Calls (flat_map (output_tick self) (Py.range (altitude self - 29) (altitude self + 29)));
      Calls [ setBrush (QBrush1 (Global black));
              setPen (QPen3 (QBrush1 (Rgba 0 0 0 0)) 2 SolidLine);
              drawPolygon poly;
              setPen (QPen3 (QBrush1 (QColor3 255 255 0)) 2 SolidLine);
              drawTextRect rect AlignCenter text;
              drawTextPoint
                (mkPoint (width self - boxWidth + 5) ((height self - boxHeight) / 2 - 5))
                "Altitude" ] ].

(** *** Battery monitor *)

(** ["{0:.1f}V".format(v)]: [v] rounded to one decimal, halves to even. *)
Definition round_half_even (x : Q) : Z :=
  let f := Qfloor x in
  match Qcompare (x - inject_Z f) 0.5 with
  | Lt => f
  | Gt => (f + 1)%Z
  | Eq => if Z.even f then f else (f + 1)%Z
  end.

Definition format_1f_V (v : Q) : string :=
  let tenths := round_half_even (Qabs v * 10) in
  ((if Py.ltb v 0 then "-" else "")
   ++ Py.str (tenths / 10) ++ "." ++ Py.str (tenths mod 10) ++ "V")%string.

Definition drawBatteryMonitor (self : ArtificialHorizon) (subs : Subscribers) : Trace :=
  if battery_enabled (battery subs) then
    let battery_width := width self * 0.13 in
    let battery_height := 0.05 * height self in
    let battery_rect := mkRect 0 (0.8 * height self) battery_width battery_height in
    let fill_rect :=
      mkRect 0 (0.8 * height self)
             (Py.int (battery_width * voltage_percent (battery subs) / 100))
             battery_height in
    let fill_brush := mkBrush (Global green) SolidPattern in
    let battery_brush := mkBrush (Global red) SolidPattern in
    [ setBrush (QBrush1 (Global red));
      fillRect battery_rect battery_brush;
      fillRect fill_rect fill_brush;
      setPen (QPen1 (Global black));
      drawTextOption battery_rect (format_1f_V (voltage (battery subs))) AlignCenter ]
  else [].

(** *** The redraw *)

(** Lines 100-103: entering the rolled and pitched frame. *)
Definition enter_roll_pitch (self : ArtificialHorizon) : Trace :=
  [ translate (width self / 2)%Z (height self / 2)%Z;
    rotate (- roll self);
    translate ((- width self) / 2)%Z ((- height self) / 2)%Z;
    translate 0 (height self * (pitch self * pitchInterval self)) ].

(** Line 108: leaving the pitch translation. *)
Definition exit_pitch (self : ArtificialHorizon) : Trace :=
  [ translate 0 (height self * ((-1 * pitch self)%Z * pitchInterval self)) ].

(** Lines 112-115: leaving the roll rotation. *)
Definition exit_roll (self : ArtificialHorizon) : Trace :=
  [ translate (width self / 2)%Z (height self / 2)%Z;
    rotate (roll self);
    translate ((- width self) / 2)%Z ((- height self) / 2)%Z ].

(** What the redraw paints between entering the frame and leaving it. *)
Definition frame_entry_to_exit (self : ArtificialHorizon) (subs : Subscribers) : Trace :=
  enter_roll_pitch self
  ++ drawGround self
  ++ drawPitchIndicator self subs
  ++ exit_pitch self
  ++ drawTurnIndicator self
  ++ exit_roll self.

(** The overlays painted in screen coordinates, lines 117-123. *)
Definition screen_overlays (self : ArtificialHorizon) (subs : Subscribers) : Trace :=
  drawAircraftSymbol self
  ++ drawAirspeedIndicator self subs
  ++ drawAltitudeIndicator self subs
  ++ drawHeadingIndicator self
  ++ drawNumSatellites self
  ++ drawOutputIndicator self
  ++ drawBatteryMonitor self subs.

(** The renderers, for a widget whose attributes were already extracted. *)
Definition draw (self : ArtificialHorizon) (subs : Subscribers) : Trace :=
  drawSky self ++ frame_entry_to_exit self subs ++ screen_overlays self subs.

Definition drawArtificialHorizon (self : ArtificialHorizon) (subs : Subscribers)
  : ArtificialHorizon * Trace :=
  let self := extract self subs in
  (self, draw self subs).

(** [paintEvent]: the redraw, run on the painter of the widget. *)
Definition paintEvent (self : ArtificialHorizon) (subs : Subscribers) (painter : QPainter)
  : ArtificialHorizon * QPainter :=
  let (self, t) := drawArtificialHorizon self subs in
  (self, run t painter).

(** ** Reading a trace and naming its parts

    Projections of a trace, sample inputs, and names for parts of the
    renderers above; the properties below are stated with them. *)

(** The texts a trace draws, in order. *)
Definition drawn_texts (t : Trace) : list string :=
  flat_map (fun c =>
              match c with
              | drawTextRect _ _ s | drawTextPoint _ s | drawTextOption _ s _ => [s]
              | _ => []
              end) t.

(** The lines a trace draws, in order, as [(x1, y1, x2, y2)]. *)
Definition drawn_lines (t : Trace) : list (Q * Q * Q * Q) :=
  flat_map (fun c =>
              match c with
              | drawLine x1 y1 x2 y2 => [(x1, y1, x2, y2)]
              | _ => []
              end) t.

(** The widget with its telemetry attributes set to given integers. *)
Definition with_telemetry (self : ArtificialHorizon)
           (roll pitch speed altitude heading numSat : Z) : ArtificialHorizon :=
  {| height := height self; width := width self;
     roll := roll; pitch := pitch; speed := speed; altitude := altitude;
     heading := heading; numSat := numSat;
     pitchInterval := pitchInterval self |}.

(** A snapshot in which no optional channel is enabled. *)
Definition no_channels : Subscribers :=
  {| state := {| phi_deg := 0; theta_deg := 0; Va := 0; alt := 0; chi_deg := 0 |};
     gps := {| gps_numSat := 0 |};
     concom := {| concom_enabled := false; Va_c := 0; h_c := 0 |};
     conin := {| conin_enabled := false; theta_c_deg := 0 |};
     battery := {| battery_enabled := false; voltage := 0; voltage_percent := 0 |} |}.

(** The labels of the ticks of the heading tape at heading [h]. *)
Definition heading_labels (h : Z) : list string :=
  flat_map (fun i => if (i mod 10 =? 0)%Z then [heading_text (wrap360 i)] else [])
           (Py.range (h - 49) (h + 49)).

(** The candidates of the three loops that get a tick. *)
Definition airspeed_ticks (self : ArtificialHorizon) : list Z :=
  filter (fun i => (i mod 10 =? 0) && (i >=? 0))%Z (Py.range (speed self - 29) (speed self + 29)).

Definition altitude_ticks (self : ArtificialHorizon) : list Z :=
  filter (fun i => i mod 10 =? 0)%Z (Py.range (altitude self - 29) (altitude self + 29)).

Definition heading_ticks (self : ArtificialHorizon) : list Z :=
  filter (fun i => i mod 10 =? 0)%Z (Py.range (heading self - 49) (heading self + 49)).

(** Line 178: the x-position of the tick of candidate [i]. *)
Definition heading_tick_x (self : ArtificialHorizon) (i : Z) : Q :=
  width self * 0.5 - ((heading self - i)%Z * 0.01 * width self).

(** The edges of the panel of the speed and altitude tapes:
    [(height - boxHeight) / 2] and [(height + boxHeight) / 2] with
    [boxHeight = height * 0.6]. *)
Definition panel_top (self : ArtificialHorizon) : Q :=
  (height self - height self * 0.6) / 2.

Definition panel_bottom (self : ArtificialHorizon) : Q :=
  (height self + height self * 0.6) / 2.

(** The two triangles, as lines 224-231 and 273-280 build them. *)
Definition speed_triangle (self : ArtificialHorizon) (y : Q) : PainterCall :=
  drawConvexPolygon
    [ mkPoint (width self * 0.13) y;
      mkPoint (width self * 0.13 + width self * 0.02) (height self * 0.01 + y);
      mkPoint (width self * 0.13 + width self * 0.02) (- (height self * 0.01) + y) ].

Definition altitude_triangle (self : ArtificialHorizon) (y : Q) : PainterCall :=
  drawConvexPolygon
    [ mkPoint (width self - width self * 0.13) y;
      mkPoint (width self - width self * 0.13 - width self * 0.02) (height self * 0.01 + y);
      mkPoint (width self - width self * 0.13 - width self * 0.02) (- (height self * 0.01) + y) ].

(** A snapshot with a commanded speed of 20 and a commanded altitude of 130,
    on a widget flying at speed 50 and altitude 100: both markers fall on
    an edge of their panel. *)
Definition commanded_on_edge : Subscribers :=
  {| state := {| phi_deg := 0; theta_deg := 0; Va := 50; alt := 100; chi_deg := 0 |};
     gps := {| gps_numSat := 6 |};
     concom := {| concom_enabled := true; Va_c := 20; h_c := 130 |};
     conin := {| conin_enabled := false; theta_c_deg := 0 |};
     battery := {| battery_enabled := false; voltage := 0; voltage_percent := 0 |} |}.

(** The parts of the pitch indicator and of the two tapes that do not read
    an optional channel: the ladder; the scale of a tape (panel and ticks)
    and its pointer box. *)
Definition pitch_ladder (self : ArtificialHorizon) : Trace :=
  flat_map (fun i => major_marker self i ++ minor_marker self i) (Py.range (-9) 9).

Definition airspeed_scale (self : ArtificialHorizon) : Trace :=
  [ setPen (QPen3 (QBrush1 (Global yellow)) 2 SolidLine);
    fillRect (mkRect 0 ((height self - height self * 0.6) / 2)
                     (width self * 0.13) (height self * 0.6))
             (QBrush1 (Rgba 100 100 100 200)) ]
  ++ flat_map (airspeed_tick self) (Py.range (speed self - 29) (speed self + 29)).

Definition airspeed_pointer (self : ArtificialHorizon) : Trace :=
  let boxWidth := width self * 0.13 in
  let boxHeight := height self * 0.6 in
  let p1 := mkPoint 0 (height self * 0.46) in
  let p2 := mkPoint (boxWidth * 0.9) (height self * 0.46) in
  let p3 := mkPoint boxWidth (height self * 0.5) in
  let p4 := mkPoint (boxWidth * 0.9) (height self * 0.54) in
  let p5 := mkPoint 0 (height self * 0.54) in
  [ setBrush (QBrush1 (Global black));
    setPen (mkPen (QBrush1 (Rgba 0 0 0 0)) 2 SolidLine RoundCap);
    drawPolygon [p1; p2; p3; p4; p5];
    setPen (mkPen (QBrush1 (QColor3 255 255 0)) 2 SolidLine RoundCap);
    drawTextRect (QRectF2 p1 p4) AlignCenter (Py.str (speed self) ++ " m/s")%string;
    drawTextPoint (mkPoint 5 ((height self - boxHeight) / 2 - 5)) "Airspeed (m/s IAS)" ].

Definition altitude_scale (self : ArtificialHorizon) : Trace :=
  [ setPen (QPen3 (QBrush1 (Global yellow)) 2 SolidLine);
    fillRect (mkRect (width self - width self * 0.13) ((height self - height self * 0.6) / 2)
                     (width self * 0.13) (height self * 0.6))
             (QBrush1 (Rgba 100 100 100 200)) ]
  ++ flat_map (altitude_tick self) (Py.range (altitude self - 29) (altitude self + 29))
  ++ [ setBrush (QBrush1 (Global yellow)) ].

Definition altitude_pointer (self : ArtificialHorizon) : Trace :=
  let boxWidth := width self * 0.13 in
  let boxHeight := height self * 0.6 in
  let p1 := mkPoint (width self) (height self * 0.46) in
  let p2 := mkPoint (width self - boxWidth * 0.9) (height self * 0.46) in
  let p3 := mkPoint (width self - boxWidth) (height self * 0.5) in
  let p4 := mkPoint (width self - boxWidth * 0.9) (height self * 0.54) in
  let p5 := mkPoint (width self) (height self * 0.54) in
  [ setBrush (QBrush1 (Global black));
    setPen (QPen3 (QBrush1 (Rgba 0 0 0 0)) 2 SolidLine);
    drawPolygon [p1; p2; p3; p4; p5];
    setPen (QPen3 (QBrush1 (QColor3 255 255 0)) 2 SolidLine);
    drawTextRect (QRectF2 p1 p4) AlignCenter (Py.str (altitude self) ++ " m")%string;
    drawTextPoint (mkPoint (width self - boxWidth + 5) ((height self - boxHeight) / 2 - 5))
                  "Altitude" ].

(** ** The painter, call by call

    The pen and the brush a trace leaves, from those it starts with, and
    the primitives it paints with the pen and brush in force for each. *)

Definition pen_after (pn : QPen) (t : Trace) : QPen :=
  fold_left (fun pn c => match c with setPen pn' => pn' | _ => pn end) t pn.

Definition brush_after (b : QBrush) (t : Trace) : QBrush :=
  fold_left (fun b c => match c with setBrush b' => b' | _ => b end) t b.

Fixpoint render (pn : QPen) (b : QBrush) (t : Trace) : list Painted :=
  match t with
  | [] => []
  | setPen pn' :: t' => render pn' b t'
  | setBrush b' :: t' => render pn b' t'
  | translate _ _ :: t' => render pn b t'
  | rotate _ :: t' => render pn b t'
  | c :: t' => mkPainted c pn b :: render pn b t'
  end.

(** The painted primitives that are convex polygons. *)
Definition convex_painted (l : list Painted) : list Painted :=
  filter (fun pt => is_convex_polygon (painted_call pt)) l.

(** The linear part of a transform: what it does to directions. *)
Definition linear (m : QTransform) : R * R * R * R := (m11 m, m12 m, m21 m, m22 m).

(** The expected label of a wrapped candidate [k] of the heading tape. *)
Definition cardinal_or_number (k : Z) : string :=
  if (k =? 0)%Z then "N"
  else if (k =? 90)%Z then "E"
  else if (k =? 180)%Z then "S"
  else if (k =? 270)%Z then "W"
  else Py.str k.

(** The parts of the turn indicator: the arc, one tick of the loop of
    lines 319-330, and the pointer polygon of lines 334-337. *)
Definition turn_xCenter (self : ArtificialHorizon) : Q := (width self / 2)%Z.

Definition turn_yCenter (self : ArtificialHorizon) : Q :=
  width self * 0.3 + height self * 0.10.

Definition turn_arc (self : ArtificialHorizon) : Trace :=
  [ setBrush (QBrush1 (Global white));
    setPen (mkPen (QBrush1 (Global white)) 2 SolidLine RoundCap);
    drawArc (mkRect (width self * 0.5 - width self * 0.3) (height self * 0.10)
                    (2 * (width self * 0.3)) (2 * (width self * 0.3)))
            (16 * 30) (16 * 120) ].

Definition turn_tick (self : ArtificialHorizon) (angle : Z) : Trace :=
  rotate_about (turn_xCenter self) (turn_yCenter self) angle
  ++ (let text := Py.str angle in
      [ drawLine (width self / 2)%Z (height self * 0.10)
                 (width self / 2)%Z (height self * 0.10 - height self * 0.02);
        drawTextPoint (mkPoint ((width self / 2)%Z - (4 * Py.len text)%Z)
                               (height self * 0.10 - height self * 0.02 - 5)) text ])
  ++ rotate_about (turn_xCenter self) (turn_yCenter self) (- angle).

Definition turn_pointer (self : ArtificialHorizon) : PainterCall :=
  drawPolygon
    [ mkPoint (width self / 2)%Z (height self * 0.10);
      mkPoint ((width self / 2)%Z - height self * 0.025 / 2)
              (height self * 0.10 + height self * 0.025);
      mkPoint ((width self / 2)%Z + height self * 0.025 / 2)
              (height self * 0.10 + height self * 0.025) ].

(** The redraw around the two commanded markers: what is issued before the
    speed triangle, between the two triangles, and after the altitude
    triangle. *)
Definition before_speed_marker (self : ArtificialHorizon) (subs : Subscribers) : Trace :=
  drawSky self ++ frame_entry_to_exit self subs ++ drawAircraftSymbol self
  ++ airspeed_scale self.

Definition between_markers (self : ArtificialHorizon) : Trace :=
  airspeed_pointer self ++ altitude_scale self.

Definition after_altitude_marker (self : ArtificialHorizon) (subs : Subscribers) : Trace :=
  altitude_pointer self ++ drawHeadingIndicator self ++ drawNumSatellites self
  ++ drawOutputIndicator self ++ drawBatteryMonitor self subs.

(** The pen both tapes set, and the two brushes the triangles are filled
    with. *)
Definition tape_pen : QPen := QPen3 (QBrush1 (Global yellow)) 2 SolidLine.
Definition aircraft_brush : QBrush := QBrush1 (QColor3 255 255 0).
Definition altitude_marker_brush : QBrush := QBrush1 (Global yellow).

(** Where a transform sends the point [(x, y)] of the coordinate system. *)
Definition map_point (m : QTransform) (x y : R) : R * R :=
  (m11 m * x + m21 m * y + m_dx m, m12 m * x + m22 m * y + m_dy m)%R.

(** The guard of the tick loops. *)
Definition multiple_of_10 (i : Z) : bool := (i mod 10 =? 0)%Z.

(** Calls that paint and change neither pen nor brush. *)
Definition only_paints (t : Trace) : bool :=
  forallb (fun c => match c with
                    | setPen _ | setBrush _ | translate _ _ | rotate _ => false
                    | _ => true
                    end) t.


(** A snapshot with one optional channel switched off, the rest as it is. *)
Definition without_concom (subs : Subscribers) : Subscribers :=
  {| state := state subs; gps := gps subs;
     concom := {| concom_enabled := false;
                  Va_c := Va_c (concom subs); h_c := h_c (concom subs) |};
     conin := conin subs; battery := battery subs |}.

Definition without_conin (subs : Subscribers) : Subscribers :=
  {| state := state subs; gps := gps subs; concom := concom subs;
     conin := {| conin_enabled := false; theta_c_deg := theta_c_deg (conin subs) |};
     battery := battery subs |}.

Definition without_battery (subs : Subscribers) : Subscribers :=
  {| state := state subs; gps := gps subs; concom := concom subs; conin := conin subs;
     battery := {| battery_enabled := false;
                   voltage := voltage (battery subs);
                   voltage_percent := voltage_percent (battery subs) |} |}.

(** The calls of the renderers and renderer parts that read no optional
    channel, in the order of the pipeline. *)
Definition unconditional (self : ArtificialHorizon) : Trace :=
  drawSky self ++ drawGround self ++ pitch_ladder self ++ drawTurnIndicator self
  ++ drawAircraftSymbol self ++ airspeed_scale self ++ airspeed_pointer self
  ++ altitude_scale self ++ altitude_pointer self ++ drawHeadingIndicator self
  ++ drawNumSatellites self.

(** A snapshot with a commanded speed 25 below the speed of 50 and a
    commanded altitude 40 above the altitude of 100. *)
Definition commanded_near_and_far : Subscribers :=
  {| state := {| phi_deg := 0; theta_deg := 0; Va := 50; alt := 100; chi_deg := 0 |};
     gps := {| gps_numSat := 6 |};
     concom := {| concom_enabled := true; Va_c := 25; h_c := 140 |};
     conin := {| conin_enabled := false; theta_c_deg := 0 |};
     battery := {| battery_enabled := false; voltage := 0; voltage_percent := 0 |} |}.

(** A painter at the identity transform that has painted nothing yet. *)
Definition sample_painter : QPainter :=
  mkPainter (mkTransform 1 0 0 1 0 0) (QPen1 (Global black)) (QBrush1 (Global black)) [].

(** * Properties *)

(** ** Python built-ins *)

Module PyFacts.

Lemma In_range (a b i : Z) : In i (Py.range a b) <-> (a <= i < b)%Z.
Proof.
  unfold Py.range. rewrite in_map_iff. split.
  - intros [k [Hk Hin]]. apply in_seq in Hin. lia.
  - intros Hi. exists (Z.to_nat (i - a)). split; [lia |].
    apply in_seq. lia.
Qed.

Lemma ltb_lt (x y : Q) : Py.ltb x y = true <-> x < y.
Proof. unfold Py.ltb, Qlt. apply Z.ltb_lt. Qed.

Lemma leb_le (x y : Q) : Py.leb x y = true <-> x <= y.
Proof. apply Qle_bool_iff. Qed.

Lemma lt_lt_spec (a x b : Q) : Py.lt_lt a x b = true <-> a < x /\ x < b.
Proof. unfold Py.lt_lt. rewrite andb_true_iff, !ltb_lt. tauto. Qed.

Lemma le_le_spec (a x b : Q) : Py.le_le a x b = true <-> a <= x /\ x <= b.
Proof. unfold Py.le_le. rewrite andb_true_iff, !leb_le. tauto. Qed.

Lemma lt_lt_false (a x b : Q) : Py.lt_lt a x b = false <-> ~ (a < x /\ x < b).
Proof. rewrite <- lt_lt_spec. destruct (Py.lt_lt a x b); intuition congruence. Qed.

Lemma le_le_false (a x b : Q) : Py.le_le a x b = false <-> ~ (a <= x /\ x <= b).
Proof. rewrite <- le_le_spec. destruct (Py.le_le a x b); intuition congruence. Qed.

End PyFacts.

(** ** Running a trace *)

Module PainterFacts.

Lemma run_app (t1 t2 : Trace) (p : QPainter) : run (t1 ++ t2) p = run t2 (run t1 p).
Proof. apply fold_left_app. Qed.

Lemma transform_of_app (t1 t2 : Trace) (m : QTransform) :
  transform_of (t1 ++ t2) m = transform_of t2 (transform_of t1 m).
Proof. apply fold_left_app. Qed.

Lemma run_worldTransform (t : Trace) :
  forall p, worldTransform (run t p) = transform_of t (worldTransform p).
Proof.
  induction t as [| c t IH]; intros p; [reflexivity |].
  change (run (c :: t) p) with (run t (step p c)).
  rewrite IH. destruct c; reflexivity.
Qed.

Lemma no_transform_app (t1 t2 : Trace) :
  no_transform (t1 ++ t2) = no_transform t1 && no_transform t2.
Proof. apply forallb_app. Qed.

Lemma no_transform_flat_map (A : Type) (f : A -> Trace) (l : list A) :
  (forall a, no_transform (f a) = true) -> no_transform (flat_map f l) = true.
Proof.
  intros Hf. induction l as [| a l IH]; [reflexivity |].
  simpl. rewrite no_transform_app, Hf, IH. reflexivity.
Qed.

Lemma transform_of_no_transform (t : Trace) :
  no_transform t = true -> forall m, transform_of t m = m.
Proof.
  induction t as [| c t IH]; intros Hn m; [reflexivity |].
  simpl in Hn. apply andb_true_iff in Hn. destruct Hn as [Hc Ht].
  change (transform_of (c :: t) m) with (transform_of t (apply_transform c m)).
  rewrite (IH Ht). destruct c; simpl in Hc; try discriminate; reflexivity.
Qed.

(** A translation is undone by the opposite translation. *)
Lemma translate_inverse (dx dy dx' dy' : R) (m : QTransform) :
  (dx' = - dx)%R -> (dy' = - dy)%R ->
  transform_translate dx' dy' (transform_translate dx dy m) = m.
Proof.
  intros -> ->. destruct m as [a b c d e f].
  unfold transform_translate. simpl. f_equal; ring.
Qed.

Lemma sin_deg2rad_opp (a : Z) : sin (deg2rad (- a)) = (- sin (deg2rad a))%R.
Proof.
  unfold deg2rad. rewrite opp_IZR.
  replace (- IZR a * PI / 180)%R with (- (IZR a * PI / 180))%R by (unfold Rdiv; ring).
  apply sin_neg.
Qed.

Lemma cos_deg2rad_opp (a : Z) : cos (deg2rad (- a)) = cos (deg2rad a).
Proof.
  unfold deg2rad. rewrite opp_IZR.
  replace (- IZR a * PI / 180)%R with (- (IZR a * PI / 180))%R by (unfold Rdiv; ring).
  apply cos_neg.
Qed.

Lemma sin_cos_unit (x : R) : (sin x * sin x + cos x * cos x = 1)%R.
Proof. generalize (sin2_cos2 x). unfold Rsqr. trivial. Qed.

(** A rotation is undone by the rotation by the opposite angle. *)
Lemma rotate_inverse (a b : Z) (m : QTransform) :
  b = (- a)%Z -> transform_rotate b (transform_rotate a m) = m.
Proof.
  intros ->. destruct m as [a11 a12 a21 a22 e f].
  unfold transform_rotate. simpl.
  rewrite sin_deg2rad_opp, cos_deg2rad_opp.
  pose proof (sin_cos_unit (deg2rad a)) as Hu.
  set (s := sin (deg2rad a)) in *. set (c := cos (deg2rad a)) in *.
  f_equal.
  - transitivity ((s * s + c * c) * a11)%R; [ring | rewrite Hu; ring].
  - transitivity ((s * s + c * c) * a12)%R; [ring | rewrite Hu; ring].
  - transitivity ((s * s + c * c) * a21)%R; [ring | rewrite Hu; ring].
  - transitivity ((s * s + c * c) * a22)%R; [ring | rewrite Hu; ring].
Qed.

Lemma Q2R_opp_eq (x y : Q) : y == - x -> Q2R y = (- Q2R x)%R.
Proof. intros H. rewrite (Qeq_eqR _ _ H). apply Q2R_opp. Qed.

(** The triple of [rotate_about], whatever is painted in between, is
    undone by the triple for the opposite angle. *)
Lemma rotate_about_inverse (xc yc : Q) (a : Z) (mid : Trace) (m : QTransform) :
  no_transform mid = true ->
  transform_of (rotate_about xc yc a ++ mid ++ rotate_about xc yc (- a)) m = m.
Proof.
  intros Hmid.
  rewrite !transform_of_app. rewrite (transform_of_no_transform _ Hmid).
  unfold rotate_about, transform_of. simpl.
  rewrite (translate_inverse (Q2R (- xc)) (Q2R (- yc)));
    [| rewrite Q2R_opp; ring | rewrite Q2R_opp; ring].
  rewrite rotate_inverse by reflexivity.
  apply translate_inverse; apply Q2R_opp.
Qed.

End PainterFacts.

(** ** The rolled and pitched frame *)

Module FrameFacts.
Import PainterFacts.

Lemma transform_of_flat_map (A : Type) (f : A -> Trace) (l : list A) :
  (forall a m, transform_of (f a) m = m) ->
  forall m, transform_of (flat_map f l) m = m.
Proof.
  intros Hf. induction l as [| a l IH]; intros m; [reflexivity |].
  simpl. rewrite transform_of_app, Hf. apply IH.
Qed.

(** On an even size the two halves the frame translates by are opposite;
    on an odd size the floor division makes them differ by one. *)
Lemma half_opp (w : Z) :
  Z.even w = true -> Q2R ((- w) / 2)%Z = (- Q2R (w / 2)%Z)%R.
Proof.
  intros He. apply Q2R_opp_eq. rewrite <- inject_Z_opp.
  pose proof (Zmod_even w) as Hm. rewrite He in Hm.
  rewrite (Z_div_zero_opp_full w 2 Hm). reflexivity.
Qed.

Remark floor_halves_of_odd_size : ((- 601) / 2 = -301 /\ - (601 / 2) = -300)%Z.
Proof. split; reflexivity. Qed.

Lemma half_opp' (w : Z) :
  Z.even w = true -> Q2R (w / 2)%Z = (- Q2R ((- w) / 2)%Z)%R.
Proof. intros He. rewrite (half_opp w He). ring. Qed.

Lemma Q2R_inject_Z (z : Z) : Q2R (inject_Z z) = IZR z.
Proof. unfold Q2R, inject_Z. simpl. field. Qed.

Lemma rotate_zero (m : QTransform) : transform_rotate 0 m = m.
Proof.
  destruct m as [a11 a12 a21 a22 e f]. unfold transform_rotate, deg2rad. simpl.
  replace (0 * PI / 180)%R with 0%R by (unfold Rdiv; ring).
  rewrite sin_0, cos_0. f_equal; ring.
Qed.

Lemma translate_translate (dx dy dx' dy' : R) (m : QTransform) :
  transform_translate dx' dy' (transform_translate dx dy m)
  = transform_translate (dx + dx') (dy + dy') m.
Proof.
  destruct m as [a11 a12 a21 a22 e f]. unfold transform_translate. simpl.
  f_equal; ring.
Qed.

Lemma pitch_offset_opp (self : ArtificialHorizon) :
  Q2R (height self * ((-1 * pitch self)%Z * pitchInterval self))
  = (- Q2R (height self * (pitch self * pitchInterval self)))%R.
Proof.
  apply Q2R_opp_eq. rewrite inject_Z_mult.
  change (inject_Z (-1)) with (-1 # 1). ring.
Qed.

Lemma Q2R_zero_opp : Q2R 0 = (- Q2R 0)%R.
Proof. apply Q2R_opp_eq. reflexivity. Qed.

Lemma drawGround_no_transform (self : ArtificialHorizon) :
  no_transform (drawGround self) = true.
Proof. reflexivity. Qed.

Lemma drawPitchIndicator_no_transform (self : ArtificialHorizon) (subs : Subscribers) :
  no_transform (drawPitchIndicator self subs) = true.
Proof.
  unfold drawPitchIndicator. rewrite no_transform_app.
  apply andb_true_iff. split.
  - apply no_transform_flat_map. intros i.
    unfold major_marker, minor_marker.
    destruct (in_window self (major_height self i));
      destruct (in_window self (minor_height self i)); reflexivity.
  - unfold pitch_command, command_marker.
    destruct (conin_enabled (conin subs)); [| reflexivity].
    destruct (in_window self (command_height self subs)); reflexivity.
Qed.

(** The turn indicator rotates the frame for each tick and for the
    pointer, and rotates it back each time. *)
Lemma drawTurnIndicator_transform (self : ArtificialHorizon) (m : QTransform) :
  transform_of (drawTurnIndicator self) m = m.
Proof.
  unfold drawTurnIndicator.
  rewrite !transform_of_app.
  match goal with
  | |- context [transform_of ?t m] =>
      rewrite (transform_of_no_transform t eq_refl m)
  end.
  rewrite transform_of_flat_map.
  - rewrite <- !transform_of_app. apply rotate_about_inverse. reflexivity.
  - intros angle m'. apply rotate_about_inverse. reflexivity.
Qed.

(** On a viewport of even width and height, leaving the frame undoes
    entering it, whatever the roll and the pitch. *)
Lemma enter_exit_transform (self : ArtificialHorizon) (m : QTransform) :
  Z.even (width self) = true -> Z.even (height self) = true ->
  transform_of (exit_roll self)
    (transform_of (exit_pitch self) (transform_of (enter_roll_pitch self) m)) = m.
Proof.
  intros Hw Hh.
  unfold exit_roll, exit_pitch, enter_roll_pitch, transform_of. simpl.
  rewrite (translate_inverse (Q2R 0)
             (Q2R (height self * (pitch self * pitchInterval self))))
    by (apply Q2R_zero_opp || apply pitch_offset_opp).
  rewrite (translate_inverse (Q2R ((- width self) / 2)%Z)
             (Q2R ((- height self) / 2)%Z))
    by (apply half_opp'; assumption).
  rewrite rotate_inverse by lia.
  apply translate_inverse; apply half_opp; assumption.
Qed.

(** With the wings level, leaving the frame after entering it leaves a
    translation by twice the sum of the two halves: nothing on an even size,
    -2 on an odd one. *)
Lemma enter_exit_upright (self : ArtificialHorizon) (m : QTransform) :
  roll self = 0%Z ->
  transform_of (exit_roll self)
    (transform_of (exit_pitch self) (transform_of (enter_roll_pitch self) m))
  = transform_translate
      (2 * (IZR (width self / 2) + IZR ((- width self) / 2)))
      (2 * (IZR (height self / 2) + IZR ((- height self) / 2))) m.
Proof.
  intros Hr.
  unfold exit_roll, exit_pitch, enter_roll_pitch, transform_of. simpl.
  rewrite Hr. change (- 0)%Z with 0%Z. rewrite !rotate_zero.
  rewrite (translate_inverse (Q2R 0)
             (Q2R (height self * (pitch self * pitchInterval self))))
    by (apply Q2R_zero_opp || apply pitch_offset_opp).
  rewrite !translate_translate, !Q2R_inject_Z.
  f_equal; ring.
Qed.

(** What is painted between entry and exit does not count. *)
Lemma frame_transform_is_enter_exit
      (self : ArtificialHorizon) (subs : Subscribers) (m : QTransform) :
  transform_of (frame_entry_to_exit self subs) m
  = transform_of (exit_roll self)
      (transform_of (exit_pitch self) (transform_of (enter_roll_pitch self) m)).
Proof.
  unfold frame_entry_to_exit. rewrite !transform_of_app.
  rewrite (transform_of_no_transform _ (drawGround_no_transform self)).
  rewrite (transform_of_no_transform _ (drawPitchIndicator_no_transform self subs)).
  rewrite drawTurnIndicator_transform. reflexivity.
Qed.

Lemma frame_entry_to_exit_transform
      (self : ArtificialHorizon) (subs : Subscribers) (m : QTransform) :
  Z.even (width self) = true -> Z.even (height self) = true ->
  transform_of (frame_entry_to_exit self subs) m = m.
Proof.
  intros Hw Hh. rewrite frame_transform_is_enter_exit.
  apply enter_exit_transform; assumption.
Qed.

End FrameFacts.

(** C1.  Leaving the rolled and pitched frame does not always undo
    entering it.  After a resize to 601 by 401, wings level and pitch 0,
    entering (lines 100-103) and leaving (line 108, lines 112-115) leave the
    painter translated by (-2, -2): [self.width / 2] is 300 and
    [-self.width / 2] is -301.  The same holds with the ground, the ladder
    and the turn indicator painted in between, so that a painter that starts
    at the identity paints the overlays 2 to the left and 2 up.  On a
    viewport of even width and height the exit does undo the entry, for
    every roll and pitch. *)
Theorem roll_pitch_frame_exit_misses_entry_on_odd_viewport (painter : QPainter) :
  let self := resizeEvent initUI 601 401 in
  worldTransform (run (enter_roll_pitch self ++ exit_pitch self ++ exit_roll self) painter)
  = transform_translate (-2) (-2) (worldTransform painter)
  /\ worldTransform (run (frame_entry_to_exit self no_channels) painter)
     = transform_translate (-2) (-2) (worldTransform painter)
  /\ (worldTransform painter = mkTransform 1 0 0 1 0 0 ->
      worldTransform (run (frame_entry_to_exit self no_channels) painter)
      = mkTransform 1 0 0 1 (-2) (-2)
      /\ worldTransform (run (frame_entry_to_exit self no_channels) painter)
         <> worldTransform painter)
  /\ (forall (self' : ArtificialHorizon) (subs : Subscribers),
         Z.even (width self') = true -> Z.even (height self') = true ->
         worldTransform (run (frame_entry_to_exit self' subs) painter)
         = worldTransform painter).
Proof.
  intros self.
  assert (Hnet : forall m,
             transform_of (exit_roll self)
               (transform_of (exit_pitch self) (transform_of (enter_roll_pitch self) m))
             = transform_translate (-2) (-2) m).
  { intros m. rewrite (FrameFacts.enter_exit_upright self m eq_refl).
    change (width self) with 601%Z. change (height self) with 401%Z.
    change (601 / 2)%Z with 300%Z. change (Z.opp 601 / 2)%Z with (-301)%Z.
    change (401 / 2)%Z with 200%Z. change (Z.opp 401 / 2)%Z with (-201)%Z.
    f_equal; Lra.lra. }
  assert (Hframe : worldTransform (run (frame_entry_to_exit self no_channels) painter)
                   = transform_translate (-2) (-2) (worldTransform painter)).
  { rewrite PainterFacts.run_worldTransform, FrameFacts.frame_transform_is_enter_exit.
    apply Hnet. }
  split; [| split; [exact Hframe | split]].
  - rewrite PainterFacts.run_worldTransform, !PainterFacts.transform_of_app. apply Hnet.
  - intros Hid. rewrite Hframe, Hid.
    assert (Hshift : transform_translate (-2) (-2) (mkTransform 1 0 0 1 0 0)
                     = mkTransform 1 0 0 1 (-2) (-2))
      by (unfold transform_translate; simpl; f_equal; ring).
    split; [exact Hshift |].
    rewrite Hshift. intros Heq. apply (f_equal m_dx) in Heq. simpl in Heq. Lra.lra.
  - intros self' subs Hw Hh. rewrite PainterFacts.run_worldTransform.
    apply FrameFacts.frame_entry_to_exit_transform; assumption.
Qed.

(** ** Traces *)

Module TraceFacts.

Lemma drawn_texts_app (t1 t2 : Trace) :
  drawn_texts (t1 ++ t2) = drawn_texts t1 ++ drawn_texts t2.
Proof. apply flat_map_app. Qed.

Lemma drawn_texts_flat_map (A : Type) (f : A -> Trace) (l : list A) :
  drawn_texts (flat_map f l) = flat_map (fun a => drawn_texts (f a)) l.
Proof.
  induction l as [| a l IH]; [reflexivity |].
  simpl. rewrite drawn_texts_app, IH. reflexivity.
Qed.

(** A loop whose body is guarded runs its body on the candidates that
    pass the guard. *)
Lemma flat_map_guard (A B : Type) (g : A -> bool) (f : A -> list B) (l : list A) :
  flat_map (fun a => if g a then f a else []) l = flat_map f (filter g l).
Proof.
  induction l as [| a l IH]; [reflexivity |].
  simpl. rewrite IH. destruct (g a); reflexivity.
Qed.

Lemma flat_map_ext_in (A B : Type) (f g : A -> list B) (l : list A) :
  (forall a, In a l -> f a = g a) -> flat_map f l = flat_map g l.
Proof.
  induction l as [| a l IH]; intros H; [reflexivity |].
  simpl. rewrite (H a (or_introl eq_refl)). f_equal.
  apply IH. intros b Hb. apply H. right. exact Hb.
Qed.

End TraceFacts.

(** ** Heading tape: compass labels *)

Lemma heading_tick_texts (self : ArtificialHorizon) :
  drawn_texts (flat_map (heading_tick self) (Py.range (heading self - 49) (heading self + 49)))
  = heading_labels (heading self).
Proof.
  rewrite TraceFacts.drawn_texts_flat_map. unfold heading_labels.
  apply TraceFacts.flat_map_ext_in. intros i _.
  unfold heading_tick. destruct (i mod 10 =? 0)%Z; reflexivity.
Qed.

(** At no heading does a tick of the tape carry one of the labels NE, SE, SW
    or NW: the table keys them at 45, 135, 215 and 315, and a tick is drawn
    for multiples of 10 only. *)
Lemma heading_tape_intercardinals_unreachable (self : ArtificialHorizon) (s : string) :
  (0 <= heading self < 360)%Z ->
  In s ["NE"; "SE"; "SW"; "NW"] ->
  ~ In s (drawn_texts (flat_map (heading_tick self)
                                (Py.range (heading self - 49) (heading self + 49)))).
Proof.
  intros Hh Hs Hin. rewrite heading_tick_texts in Hin.
  assert (Hall :
            forallb (fun h =>
                       forallb (fun l => negb (existsb (String.eqb l) ["NE"; "SE"; "SW"; "NW"]))
                               (heading_labels h))
                    (Py.range 0 360) = true) by (vm_compute; reflexivity).
  rewrite forallb_forall in Hall.
  specialize (Hall (heading self) (proj2 (PyFacts.In_range 0 360 _) Hh)).
  rewrite forallb_forall in Hall. specialize (Hall s Hin).
  apply negb_true_iff in Hall.
  assert (Hex : existsb (String.eqb s) ["NE"; "SE"; "SW"; "NW"] = true).
  { apply existsb_exists. exists s. split; [exact Hs | apply String.eqb_refl]. }
  congruence.
Qed.

(** C2.  The compass label of 225 degrees.  The table of the heading tape
    has no entry for 225 and keys SW at 215: a wrapped candidate of 225 is
    labelled with its number, one of 215 would be labelled SW.  At heading
    225 the tape draws a tick every 10 degrees from 180 (S) to 270 (W) and no
    SW; the label under the pointer is the number too. *)
Theorem heading_tape_southwest_keyed_at_215 :
  Py.get directions 225 = None
  /\ heading_text (wrap360 225) = "225"
  /\ heading_text (wrap360 215) = "SW"
  /\ drawn_texts (drawHeadingIndicator (with_telemetry initUI 0 0 0 0 225 0))
     = ["S"; "190"; "200"; "210"; "220"; "230"; "240"; "250"; "260"; "W";
        ("225" ++ degree_sign)%string].
Proof. repeat split; vm_compute; reflexivity. Qed.

(** ** Tapes: which candidates get a tick *)

Module TapeFacts.

Lemma airspeed_loop (self : ArtificialHorizon) :
  flat_map (airspeed_tick self) (Py.range (speed self - 29) (speed self + 29))
  = flat_map (fun i =>
                let x := width self * 0.13 in
                let y := height self * 0.5 + ((speed self - i)%Z * 0.01 * height self) in
                [ drawLine (x - 5) y x y;
                  drawTextPoint (mkPoint (x - 10 - (8 * Py.len (Py.str i))%Z) (y + 5))
                                (Py.str i) ])
             (airspeed_ticks self).
Proof. unfold airspeed_ticks. rewrite <- TraceFacts.flat_map_guard. reflexivity. Qed.

Lemma altitude_loop (self : ArtificialHorizon) :
  flat_map (altitude_tick self) (Py.range (altitude self - 29) (altitude self + 29))
  = flat_map (fun i =>
                let x := width self - width self * 0.13 in
                let y := height self * 0.5 + ((altitude self - i)%Z * 0.01 * height self) in
                [ drawLine x y (x + 5) y;
                  drawTextPoint (mkPoint (x + 10) (y + 5)) (Py.str i) ])
             (altitude_ticks self).
Proof. unfold altitude_ticks. rewrite <- TraceFacts.flat_map_guard. reflexivity. Qed.

(** The ticks lie from 29 below the current value to 28 above it. *)
Lemma In_airspeed_ticks (self : ArtificialHorizon) (i : Z) :
  In i (airspeed_ticks self)
  <-> (speed self - 29 <= i <= speed self + 28 /\ i mod 10 = 0 /\ 0 <= i)%Z.
Proof.
  unfold airspeed_ticks. rewrite filter_In, PyFacts.In_range, andb_true_iff.
  rewrite Z.eqb_eq, Z.geb_le. lia.
Qed.

Lemma In_altitude_ticks (self : ArtificialHorizon) (i : Z) :
  In i (altitude_ticks self)
  <-> (altitude self - 29 <= i <= altitude self + 28 /\ i mod 10 = 0)%Z.
Proof.
  unfold altitude_ticks. rewrite filter_In, PyFacts.In_range, Z.eqb_eq. lia.
Qed.

Lemma In_heading_ticks (self : ArtificialHorizon) (i : Z) :
  In i (heading_ticks self)
  <-> (heading self - 49 <= i <= heading self + 48 /\ i mod 10 = 0)%Z.
Proof.
  unfold heading_ticks. rewrite filter_In, PyFacts.In_range, Z.eqb_eq. lia.
Qed.

End TapeFacts.

(** C3.  The upper end of the tape windows.  At speed 1 the candidate 30
    lies 29 above the current value and is a multiple of 10, and so does 30
    at altitude 1 and 50 at heading 1 (49 above); none of them gets a tick:
    the loops stop one short of the upper end.  The candidates 29 (49) below
    the current value do get theirs: -20 at altitude 9, 320 for -40 at
    heading 9.  Negative candidates are dropped by the speed tape only. *)
Theorem tape_windows_stop_one_short :
  let at_1 := with_telemetry initUI 0 0 1 1 1 0 in
  let at_9 := with_telemetry initUI 0 0 9 9 9 0 in
  airspeed_ticks at_1 = [0; 10; 20]%Z
  /\ altitude_ticks at_1 = [-20; -10; 0; 10; 20]%Z
  /\ heading_ticks at_1 = [-40; -30; -20; -10; 0; 10; 20; 30; 40]%Z
  /\ drawn_texts (drawAirspeedIndicator at_1 no_channels)
     = ["0"; "10"; "20"; "1 m/s"; "Airspeed (m/s IAS)"]
  /\ drawn_texts (drawAltitudeIndicator at_1 no_channels)
     = ["-20"; "-10"; "0"; "10"; "20"; "1 m"; "Altitude"]
  /\ drawn_texts (drawHeadingIndicator at_1)
     = ["320"; "330"; "340"; "350"; "N"; "10"; "20"; "30"; "40"; ("1" ++ degree_sign)%string]
  /\ altitude_ticks at_9 = [-20; -10; 0; 10; 20; 30]%Z
  /\ heading_ticks at_9 = [-40; -30; -20; -10; 0; 10; 20; 30; 40; 50]%Z.
Proof. repeat split; vm_compute; reflexivity. Qed.

(** ** Pitch ladder *)

Module LadderFacts.

Lemma rungs : Py.range (-9) 9 = [-9; -8; -7; -6; -5; -4; -3; -2; -1; 0; 1; 2; 3; 4; 5; 6; 7; 8]%Z.
Proof. reflexivity. Qed.

Lemma in_window_spec (self : ArtificialHorizon) (h : Q) :
  in_window self h = true <-> minHeight self < h /\ h < maxHeight self.
Proof. apply PyFacts.lt_lt_spec. Qed.

Lemma in_window_false (self : ArtificialHorizon) (h : Q) :
  in_window self h = false <-> ~ (minHeight self < h /\ h < maxHeight self).
Proof. apply PyFacts.lt_lt_false. Qed.

(** A height on the edge of the window is outside it. *)
Lemma in_window_edge (self : ArtificialHorizon) (h : Q) :
  h == minHeight self \/ h == maxHeight self -> in_window self h = false.
Proof.
  intros He. apply in_window_false. intros [Hlo Hhi].
  destruct He as [He | He]; rewrite He in *;
    [apply (Qlt_irrefl _ Hlo) | apply (Qlt_irrefl _ Hhi)].
Qed.

(** The lines of the three kinds of marker. *)
Lemma major_marker_lines (self : ArtificialHorizon) (i : Z) :
  drawn_lines (major_marker self i)
  = if in_window self (major_height self i)
    then [ (width self * 0.4, height self * major_height self i,
            width self * 0.6, height self * major_height self i) ]
    else [].
Proof. unfold major_marker. destruct (in_window self _); reflexivity. Qed.

Lemma minor_marker_lines (self : ArtificialHorizon) (i : Z) :
  drawn_lines (minor_marker self i)
  = if in_window self (minor_height self i)
    then [ (width self * 0.45, height self * minor_height self i,
            width self * 0.55, height self * minor_height self i) ]
    else [].
Proof. unfold minor_marker. destruct (in_window self _); reflexivity. Qed.

Lemma command_marker_lines (self : ArtificialHorizon) (subs : Subscribers) :
  drawn_lines (command_marker self subs)
  = if in_window self (command_height self subs)
    then [ (width self * 0.4, height self * command_height self subs,
            width self * 0.6, height self * command_height self subs) ]
    else [].
Proof. unfold command_marker. destruct (in_window self _); reflexivity. Qed.

Lemma drawn_lines_app (t1 t2 : Trace) :
  drawn_lines (t1 ++ t2) = drawn_lines t1 ++ drawn_lines t2.
Proof. apply flat_map_app. Qed.

Lemma drawn_lines_flat_map (A : Type) (f : A -> Trace) (l : list A) :
  drawn_lines (flat_map f l) = flat_map (fun a => drawn_lines (f a)) l.
Proof.
  induction l as [| a l IH]; [reflexivity |].
  simpl. rewrite drawn_lines_app, IH. reflexivity.
Qed.

(** Every line of the pitch indicator is the line of a marker: of the
    major or minor marker of a rung in [-9, 8], or of the commanded
    pitch. *)
Lemma drawPitchIndicator_lines (self : ArtificialHorizon) (subs : Subscribers)
      (l : Q * Q * Q * Q) :
  In l (drawn_lines (drawPitchIndicator self subs)) <->
  (exists i, (-9 <= i <= 8)%Z /\ In l (drawn_lines (major_marker self i)))
  \/ (exists i, (-9 <= i <= 8)%Z /\ In l (drawn_lines (minor_marker self i)))
  \/ (conin_enabled (conin subs) = true /\ In l (drawn_lines (command_marker self subs))).
Proof.
  unfold drawPitchIndicator.
  rewrite drawn_lines_app, in_app_iff, drawn_lines_flat_map, in_flat_map.
  split.
  - intros [[i [Hi Hl]] | Hl].
    + apply PyFacts.In_range in Hi.
      rewrite drawn_lines_app, in_app_iff in Hl.
      destruct Hl as [Hl | Hl]; [left | right; left]; exists i; split; trivial; lia.
    + right; right. unfold pitch_command in Hl.
      destruct (conin_enabled (conin subs)); [| contradiction].
      split; [reflexivity |].
      rewrite !drawn_lines_app, !in_app_iff in Hl. simpl in Hl. tauto.
  - intros [[i [Hi Hl]] | [[i [Hi Hl]] | [He Hl]]].
    + left. exists i. split; [apply PyFacts.In_range; lia |].
      rewrite drawn_lines_app, in_app_iff. tauto.
    + left. exists i. split; [apply PyFacts.In_range; lia |].
      rewrite drawn_lines_app, in_app_iff. tauto.
    + right. unfold pitch_command. rewrite He.
      rewrite !drawn_lines_app, !in_app_iff. simpl. tauto.
Qed.

End LadderFacts.

(** C4.  The top rung of the pitch ladder.  The loop runs over the rungs
    -9 to 8.  Pitched up by 70 degrees, the major line of rung 9 (90 degrees,
    at height fraction 0.5 - pitchInterval*10*9) is inside the window, and
    the ladder draws the labels 50 to 80 only; pitched down by 70 degrees it
    draws the mirror image with its 90: rung -9 is in the loop. *)
Theorem pitch_ladder_has_no_rung_9 :
  let up := with_telemetry initUI 0 70 0 0 0 0 in
  let down := with_telemetry initUI 0 (-70) 0 0 0 0 in
  in_window up (major_height up 9) = true
  /\ major_marker up 9 <> []
  /\ ~ In 9%Z (Py.range (-9) 9)
  /\ drawn_texts (drawPitchIndicator up no_channels)
     = ["50"; "50"; "60"; "60"; "70"; "70"; "80"; "80"]
  /\ in_window down (major_height down (-9)) = true
  /\ drawn_texts (drawPitchIndicator down no_channels)
     = ["90"; "90"; "80"; "80"; "70"; "70"; "60"; "60"; "50"; "50"].
Proof.
  repeat split; try (vm_compute; reflexivity).
  - vm_compute. discriminate.
  - rewrite PyFacts.In_range. lia.
Qed.

(** C5.  The visibility window of the pitch ladder is open at both ends.
    A major marker, a minor marker and the commanded-pitch marker are each
    drawn exactly when their height fraction [h] satisfies
    [0.15 - pitch*pitchInterval < h < 0.85 - pitch*pitchInterval]; a marker
    whose height fraction is on either edge is not drawn; and every line in
    the trace of the pitch indicator is at [height * h] for an [h] strictly
    inside the window. *)
Theorem pitch_marker_window_is_strict (self : ArtificialHorizon) (subs : Subscribers) :
  minHeight self == 0.15 - pitch self * pitchInterval self
  /\ maxHeight self == 0.85 - pitch self * pitchInterval self
  /\ (forall i,
         (major_marker self i <> []
          <-> minHeight self < major_height self i /\ major_height self i < maxHeight self)
         /\ (minor_marker self i <> []
             <-> minHeight self < minor_height self i /\ minor_height self i < maxHeight self))
  /\ (command_marker self subs <> []
      <-> minHeight self < command_height self subs
          /\ command_height self subs < maxHeight self)
  /\ (forall i,
         (major_height self i == minHeight self \/ major_height self i == maxHeight self
          -> major_marker self i = [])
         /\ (minor_height self i == minHeight self \/ minor_height self i == maxHeight self
             -> minor_marker self i = []))
  /\ (command_height self subs == minHeight self \/ command_height self subs == maxHeight self
      -> command_marker self subs = [])
  /\ (forall x1 y1 x2 y2,
         In (x1, y1, x2, y2) (drawn_lines (drawPitchIndicator self subs)) ->
         exists h, y1 = height self * h /\ y2 = height self * h
                   /\ minHeight self < h /\ h < maxHeight self).
Proof.
  split; [reflexivity |]. split; [reflexivity |].
  split; [| split; [| split; [| split]]].
  - intros i. split.
    + unfold major_marker. rewrite <- LadderFacts.in_window_spec.
      destruct (in_window self (major_height self i)); intuition congruence.
    + unfold minor_marker. rewrite <- LadderFacts.in_window_spec.
      destruct (in_window self (minor_height self i)); intuition congruence.
  - unfold command_marker. rewrite <- LadderFacts.in_window_spec.
    destruct (in_window self (command_height self subs)); intuition congruence.
  - intros i. split; intros He.
    + unfold major_marker. rewrite (LadderFacts.in_window_edge _ _ He). reflexivity.
    + unfold minor_marker. rewrite (LadderFacts.in_window_edge _ _ He). reflexivity.
  - intros He. unfold command_marker.
    rewrite (LadderFacts.in_window_edge _ _ He). reflexivity.
  - intros x1 y1 x2 y2 Hin.
    apply LadderFacts.drawPitchIndicator_lines in Hin.
    destruct Hin as [[i [_ Hl]] | [[i [_ Hl]] | [_ Hl]]].
    + rewrite LadderFacts.major_marker_lines in Hl.
      destruct (in_window self (major_height self i)) eqn:Hw; [| contradiction].
      apply LadderFacts.in_window_spec in Hw.
      destruct Hl as [Hl | []]. inversion Hl; subst.
      exists (major_height self i). tauto.
    + rewrite LadderFacts.minor_marker_lines in Hl.
      destruct (in_window self (minor_height self i)) eqn:Hw; [| contradiction].
      apply LadderFacts.in_window_spec in Hw.
      destruct Hl as [Hl | []]. inversion Hl; subst.
      exists (minor_height self i). tauto.
    + rewrite LadderFacts.command_marker_lines in Hl.
      destruct (in_window self (command_height self subs)) eqn:Hw; [| contradiction].
      apply LadderFacts.in_window_spec in Hw.
      destruct Hl as [Hl | []]. inversion Hl; subst.
      exists (command_height self subs). tauto.
Qed.

(** ** Commanded speed and altitude markers *)

Module MarkerFacts.

Lemma filter_flat_map_nil (A B : Type) (g : B -> bool) (f : A -> list B) (l : list A) :
  (forall a, filter g (f a) = []) -> filter g (flat_map f l) = [].
Proof.
  intros Hf. induction l as [| a l IH]; [reflexivity |].
  simpl. rewrite filter_app, Hf, IH. reflexivity.
Qed.

Lemma airspeed_command_spec (self : ArtificialHorizon) (subs : Subscribers) :
  airspeed_command self subs
  = if concom_enabled (concom subs)
    then if Py.le_le (panel_top self) (va_c_y self subs) (panel_bottom self)
         then [speed_triangle self (va_c_y self subs)]
         else []
    else [].
Proof. reflexivity. Qed.

Lemma altitude_command_spec (self : ArtificialHorizon) (subs : Subscribers) :
  altitude_command self subs
  = if concom_enabled (concom subs)
    then if Py.le_le (panel_top self) (alt_c_y self subs) (panel_bottom self)
         then [altitude_triangle self (alt_c_y self subs)]
         else []
    else [].
Proof. reflexivity. Qed.

Lemma convex_of_command (t : Trace) :
  (t = [] \/ exists poly, t = [drawConvexPolygon poly]) ->
  filter is_convex_polygon t = t.
Proof. intros [-> | [poly ->]]; reflexivity. Qed.

(** The only convex polygons of the two tapes are the commanded markers. *)
Lemma airspeed_convex (self : ArtificialHorizon) (subs : Subscribers) :
  filter is_convex_polygon (drawAirspeedIndicator self subs) = airspeed_command self subs.
Proof.
  unfold drawAirspeedIndicator. rewrite !filter_app.
  rewrite filter_flat_map_nil.
  - simpl. rewrite app_nil_r. apply convex_of_command.
    rewrite airspeed_command_spec.
    destruct (concom_enabled (concom subs)); [| left; reflexivity].
    destruct (Py.le_le _ _ _); [right; eexists | left]; reflexivity.
  - intros i. unfold airspeed_tick. destruct (_ && _)%bool; reflexivity.
Qed.

Lemma altitude_convex (self : ArtificialHorizon) (subs : Subscribers) :
  filter is_convex_polygon (drawAltitudeIndicator self subs) = altitude_command self subs.
Proof.
  unfold drawAltitudeIndicator. rewrite !filter_app.
  rewrite filter_flat_map_nil.
  - simpl. rewrite app_nil_r. apply convex_of_command.
    rewrite altitude_command_spec.
    destruct (concom_enabled (concom subs)); [| left; reflexivity].
    destruct (Py.le_le _ _ _); [right; eexists | left]; reflexivity.
  - intros i. unfold altitude_tick. destruct (_ =? _)%Z; reflexivity.
Qed.

Lemma panel_edges_ordered (self : ArtificialHorizon) :
  (0 <= height self)%Z -> panel_top self <= panel_bottom self.
Proof.
  intros Hh. unfold panel_top, panel_bottom.
  assert (H0 : 0 <= inject_Z (height self)).
  { change 0 with (inject_Z 0). rewrite <- Zle_Qle. exact Hh. }
  apply Qle_minus_iff.
  setoid_replace ((height self + height self * 0.6) / 2
                  + - ((height self - height self * 0.6) / 2))
    with (inject_Z (height self) * 0.6) by field.
  apply Qmult_le_0_compat; [exact H0 | discriminate].
Qed.

Lemma on_edge_is_inside (self : ArtificialHorizon) (y : Q) :
  (0 <= height self)%Z ->
  y == panel_top self \/ y == panel_bottom self ->
  Py.le_le (panel_top self) y (panel_bottom self) = true.
Proof.
  intros Hh He. apply PyFacts.le_le_spec.
  pose proof (panel_edges_ordered self Hh) as Ho.
  destruct He as [He | He]; rewrite He; split;
    (apply Qle_refl || exact Ho).
Qed.

End MarkerFacts.

(** C6.  With the commanded values enabled, on a viewport of non-negative
    height: the speed tape draws its triangle exactly when
    [y = height*0.5 + (speed - Va_c)*0.01*height] satisfies
    [(height - boxHeight)/2 <= y <= (height + boxHeight)/2], both edges
    included; the triangle then has its tip at [y] itself; otherwise the tape
    draws no convex polygon at all.  The altitude tape does the same with
    [altitude] and [h_c]. *)
Theorem commanded_markers_inclusive_bounds (self : ArtificialHorizon) (subs : Subscribers) :
  concom_enabled (concom subs) = true ->
  (0 <= height self)%Z ->
  let marked (y : Q) := panel_top self <= y /\ y <= panel_bottom self in
  let on_edge (y : Q) := y == panel_top self \/ y == panel_bottom self in
  va_c_y self subs
  = height self * 0.5 + (((speed self : Q) - Va_c (concom subs)) * 0.01 * height self)
  /\ alt_c_y self subs
     = height self * 0.5 + (((altitude self : Q) - h_c (concom subs)) * 0.01 * height self)
  /\ (marked (va_c_y self subs) ->
      filter is_convex_polygon (drawAirspeedIndicator self subs)
      = [speed_triangle self (va_c_y self subs)])
  /\ (~ marked (va_c_y self subs) ->
      filter is_convex_polygon (drawAirspeedIndicator self subs) = [])
  /\ (on_edge (va_c_y self subs) ->
      filter is_convex_polygon (drawAirspeedIndicator self subs)
      = [speed_triangle self (va_c_y self subs)])
  /\ (marked (alt_c_y self subs) ->
      filter is_convex_polygon (drawAltitudeIndicator self subs)
      = [altitude_triangle self (alt_c_y self subs)])
  /\ (~ marked (alt_c_y self subs) ->
      filter is_convex_polygon (drawAltitudeIndicator self subs) = [])
  /\ (on_edge (alt_c_y self subs) ->
      filter is_convex_polygon (drawAltitudeIndicator self subs)
      = [altitude_triangle self (alt_c_y self subs)]).
Proof.
  intros Hen Hh marked on_edge.
  rewrite MarkerFacts.airspeed_convex, MarkerFacts.altitude_convex.
  rewrite MarkerFacts.airspeed_command_spec, MarkerFacts.altitude_command_spec, Hen.
  split; [reflexivity |]. split; [reflexivity |].
  repeat split.
  - intros Hm. apply PyFacts.le_le_spec in Hm. rewrite Hm. reflexivity.
  - intros Hm. apply PyFacts.le_le_false in Hm. rewrite Hm. reflexivity.
  - intros He. rewrite (MarkerFacts.on_edge_is_inside self _ Hh He). reflexivity.
  - intros Hm. apply PyFacts.le_le_spec in Hm. rewrite Hm. reflexivity.
  - intros Hm. apply PyFacts.le_le_false in Hm. rewrite Hm. reflexivity.
  - intros He. rewrite (MarkerFacts.on_edge_is_inside self _ Hh He). reflexivity.
Qed.

(** The theorem at that snapshot: the speed marker sits on the bottom edge
    of its panel, the altitude marker on the top edge, and both are drawn. *)
Lemma commanded_markers_inclusive_bounds_witness :
  let self := fst (drawArtificialHorizon initUI commanded_on_edge) in
  concom_enabled (concom commanded_on_edge) = true
  /\ (0 <= height self)%Z
  /\ va_c_y self commanded_on_edge == panel_bottom self
  /\ alt_c_y self commanded_on_edge == panel_top self
  /\ filter is_convex_polygon (drawAirspeedIndicator self commanded_on_edge)
     = [speed_triangle self (va_c_y self commanded_on_edge)]
  /\ filter is_convex_polygon (drawAltitudeIndicator self commanded_on_edge)
     = [altitude_triangle self (alt_c_y self commanded_on_edge)].
Proof.
  intros self.
  assert (He : concom_enabled (concom commanded_on_edge) = true) by reflexivity.
  assert (Hh : (0 <= height self)%Z) by (vm_compute; discriminate).
  assert (Hv : va_c_y self commanded_on_edge == panel_bottom self) by (vm_compute; reflexivity).
  assert (Ha : alt_c_y self commanded_on_edge == panel_top self) by (vm_compute; reflexivity).
  destruct (commanded_markers_inclusive_bounds self commanded_on_edge He Hh)
    as (_ & _ & _ & _ & Hspeed & _ & _ & Halt).
  split; [exact He |]. split; [exact Hh |]. split; [exact Hv |]. split; [exact Ha |].
  split.
  - apply Hspeed. right. exact Hv.
  - apply Halt. left. exact Ha.
Defined.

(** ** Satellite count *)

(** C7.  The text of the satellite count is painted with a red pen exactly
    when the count is below 4, and with a green pen exactly when it is 4 or
    more: running [drawNumSatellites] paints one primitive, the text
    "GPS: n satellites", and the pen in force for it is red for [n < 4] and
    green otherwise.  A count of 3 is painted red, a count of 4 green. *)
Theorem satellite_text_colour (self : ArtificialHorizon) (painter : QPainter) :
  (exists rect pn,
      painted (run (drawNumSatellites self) painter)
      = painted painter
        ++ [ mkPainted
               (drawTextRect rect AlignCenter
                             ("GPS: " ++ Py.str (numSat self) ++ " satellites")%string)
               pn (brush painter) ]
      /\ (pen_color pn = Global red <-> (numSat self < 4)%Z)
      /\ (pen_color pn = Global green <-> (4 <= numSat self)%Z))
  /\ map (fun pt => pen_color (painted_pen pt))
         (painted (run (drawNumSatellites (with_telemetry self 0 0 0 0 0 3)) painter))
     = map (fun pt => pen_color (painted_pen pt)) (painted painter) ++ [Global red]
  /\ map (fun pt => pen_color (painted_pen pt))
         (painted (run (drawNumSatellites (with_telemetry self 0 0 0 0 0 4)) painter))
     = map (fun pt => pen_color (painted_pen pt)) (painted painter) ++ [Global green].
Proof.
  split; [| split].
  - unfold drawNumSatellites.
    destruct (numSat self <? 4)%Z eqn:Hn.
    + apply Z.ltb_lt in Hn. eexists. eexists. split; [reflexivity |].
      simpl. split; split; intros H; try reflexivity; try discriminate; lia.
    + apply Z.ltb_ge in Hn. eexists. eexists. split; [reflexivity |].
      simpl. split; split; intros H; try reflexivity; try discriminate; lia.
  - simpl. rewrite map_app. reflexivity.
  - simpl. rewrite map_app. reflexivity.
Qed.

(** ** Output indicator *)

(** C9.  The redraw calls [drawOutputIndicator] every time, between the
    satellite count and the battery monitor; the call returns at once: it
    issues no painter call, so that the painter it is run on (transform, pen,
    brush, painted primitives) is left as it was. *)
Theorem drawOutputIndicator_draws_nothing
        (self : ArtificialHorizon) (subs : Subscribers) (painter : QPainter) :
  drawOutputIndicator self = []
  /\ run (drawOutputIndicator self) painter = painter
  /\ (let self' := fst (drawArtificialHorizon self subs) in
      snd (drawArtificialHorizon self subs)
      = drawSky self' ++ frame_entry_to_exit self' subs
        ++ drawAircraftSymbol self'
        ++ drawAirspeedIndicator self' subs
        ++ drawAltitudeIndicator self' subs
        ++ drawHeadingIndicator self'
        ++ drawNumSatellites self'
        ++ drawOutputIndicator self'
        ++ drawBatteryMonitor self' subs).
Proof. repeat split. Qed.

(** ** Heading tape: where a tick goes *)

Module HeadingFacts.

Lemma heading_loop (self : ArtificialHorizon) :
  flat_map (heading_tick self) (Py.range (heading self - 49) (heading self + 49))
  = flat_map (fun i =>
                let x := heading_tick_x self i in
                let y := height self - height self * 0.1 in
                let text := heading_text (wrap360 i) in
                [ drawLine x y x (y + 5);
                  drawTextPoint (mkPoint (x + 7 - (8 * Py.len text)%Z) (y + 22)) text ])
             (heading_ticks self).
Proof. unfold heading_ticks. rewrite <- TraceFacts.flat_map_guard. reflexivity. Qed.

(** The two steps of the wrapping amount to one reduction modulo 360. *)
Lemma wrap360_mod (i : Z) : wrap360 i = (i mod 360)%Z.
Proof.
  unfold wrap360. destruct (i <? 0)%Z; [| reflexivity].
  replace (i + 360)%Z with (i + 1 * 360)%Z by lia. apply Z_mod_plus_full.
Qed.

Lemma heading_tick_x_step (self : ArtificialHorizon) (i j : Z) :
  heading_tick_x self i - heading_tick_x self j == (i - j)%Z * 0.01 * width self.
Proof.
  unfold heading_tick_x.
  unfold Zminus. rewrite !inject_Z_plus, !inject_Z_opp. ring.
Qed.

End HeadingFacts.

(** C10, as amended.  On the heading tape the tick of a candidate [i] is
    the line from [(x, y)] to [(x, y + 5)] with
    [x = width*0.5 - (heading - i)*0.01*width], [i] as the loop enumerates it,
    before it is wrapped: wrapping never moves a tick.  The label is the text
    of [i] wrapped into [0, 360); it is drawn at
    [(x + 7 - 8*len(text), y + 22)] for that same [x] and the wrapped text, so
    that its left end moves with the length of the text and, at 8 units a
    character, its right end is at [x + 7] whatever the text.  Both hold of
    every line and every point label [drawHeadingIndicator] draws.  The ticks
    are spaced by [0.01*width] per degree of the unwrapped candidate, also
    where two candidates wrap to the same label. *)
Theorem heading_tick_position_uses_unwrapped_candidate (self : ArtificialHorizon) :
  flat_map (heading_tick self) (Py.range (heading self - 49) (heading self + 49))
  = flat_map (fun i =>
                let x := width self * 0.5 - ((heading self - i)%Z * 0.01 * width self) in
                let y := height self - height self * 0.1 in
                let text := heading_text (wrap360 i) in
                [ drawLine x y x (y + 5);
                  drawTextPoint (mkPoint (x + 7 - (8 * Py.len text)%Z) (y + 22)) text ])
             (heading_ticks self)
  /\ drawn_lines (drawHeadingIndicator self)
     = map (fun i => (heading_tick_x self i, height self - height self * 0.1,
                      heading_tick_x self i, height self - height self * 0.1 + 5))
           (heading_ticks self)
  /\ drawn_texts (flat_map (heading_tick self)
                           (Py.range (heading self - 49) (heading self + 49)))
     = map (fun i => heading_text (wrap360 i)) (heading_ticks self)
  /\ (forall p text,
         In (drawTextPoint p text) (drawHeadingIndicator self) ->
         exists i, In i (heading_ticks self)
                   /\ text = heading_text (wrap360 i)
                   /\ px p = heading_tick_x self i + 7 - (8 * Py.len text)%Z
                   /\ px p + (8 * Py.len text)%Z == heading_tick_x self i + 7
                   /\ py p = height self - height self * 0.1 + 22)
  /\ (forall i j, heading_tick_x self i - heading_tick_x self j
                  == (i - j)%Z * 0.01 * width self)
  /\ (forall i, wrap360 (i + 360) = wrap360 i /\ wrap360 (i - 360) = wrap360 i
                /\ heading_tick_x self (i + 360) - heading_tick_x self i
                   == 360 * 0.01 * width self).
Proof.
  split; [apply HeadingFacts.heading_loop |].
  split; [| split; [| split; [| split]]].
  - unfold drawHeadingIndicator.
    rewrite !LadderFacts.drawn_lines_app, HeadingFacts.heading_loop.
    simpl. rewrite app_nil_r.
    induction (heading_ticks self) as [| i l IH]; [reflexivity |].
    simpl. f_equal. exact IH.
  - rewrite HeadingFacts.heading_loop.
    induction (heading_ticks self) as [| i l IH]; [reflexivity |].
    simpl. f_equal. exact IH.
  - intros p text Hin. unfold drawHeadingIndicator in Hin.
    rewrite !in_app_iff in Hin. destruct Hin as [Hin | [Hin | Hin]].
    + simpl in Hin. destruct Hin as [Hin | [Hin | []]]; discriminate.
    + apply in_flat_map in Hin. destruct Hin as [i [Hr Hin]].
      unfold heading_tick in Hin.
      destruct (i mod 10 =? 0)%Z eqn:Hm; [| contradiction].
      destruct Hin as [Hin | [Hin | []]]; [discriminate |].
      inversion Hin; subst. exists i.
      split; [unfold heading_ticks; apply filter_In; split; assumption |].
      split; [reflexivity |]. split; [reflexivity |]. split; [| reflexivity].
      simpl. unfold heading_tick_x. ring.
    + simpl in Hin.
      destruct Hin as [Hin | [Hin | [Hin | [Hin | [Hin | []]]]]]; discriminate.
  - apply HeadingFacts.heading_tick_x_step.
  - intros i. split; [| split].
    + rewrite !HeadingFacts.wrap360_mod.
      replace (i + 360)%Z with (i + 1 * 360)%Z by lia. apply Z_mod_plus_full.
    + rewrite !HeadingFacts.wrap360_mod.
      replace (i - 360)%Z with (i + (-1) * 360)%Z by lia. apply Z_mod_plus_full.
    + rewrite HeadingFacts.heading_tick_x_step.
      replace (i + 360 - i)%Z with 360%Z by lia. reflexivity.
Qed.

(** C10, as stated, fails.  Wrapping does move a label.  At heading 355 on
    the default viewport the candidate 360 has its tick at [x = 330]; it wraps
    to 0 and is labelled N, drawn at [x + 7 - 8 = 329], where the label of the
    unwrapped candidate, "360", would be drawn at [x + 7 - 24 = 313]; and the
    candidate 370, labelled "10", is drawn 8 to the right of where "370" would
    be. *)
Lemma heading_label_position_moves_with_wrapping :
  let self := with_telemetry initUI 0 0 0 0 355 0 in
  ~ (forall i p text,
        In (drawTextPoint p text) (heading_tick self i) ->
        px p == heading_tick_x self i + 7 - (8 * Py.len (heading_text i))%Z)
  /\ In (drawTextPoint (mkPoint (heading_tick_x self 360 + 7 - (8 * 1)%Z)
                                (height self - height self * 0.1 + 22)) "N")
        (drawHeadingIndicator self)
  /\ heading_tick_x self 360 + 7 - (8 * 1)%Z == 329
  /\ heading_tick_x self 360 + 7 - (8 * Py.len (heading_text 360))%Z == 313
  /\ In (drawTextPoint (mkPoint (heading_tick_x self 370 + 7 - (8 * 2)%Z)
                                (height self - height self * 0.1 + 22)) "10")
        (drawHeadingIndicator self)
  /\ heading_tick_x self 370 + 7 - (8 * 2)%Z == 381
  /\ heading_tick_x self 370 + 7 - (8 * Py.len (heading_text 370))%Z == 373.
Proof.
  intros self.
  assert (H360 : In (drawTextPoint (mkPoint (heading_tick_x self 360 + 7 - (8 * 1)%Z)
                                            (height self - height self * 0.1 + 22)) "N")
                    (heading_tick self 360)) by (right; left; reflexivity).
  assert (H370 : In (drawTextPoint (mkPoint (heading_tick_x self 370 + 7 - (8 * 2)%Z)
                                            (height self - height self * 0.1 + 22)) "10")
                    (heading_tick self 370)) by (right; left; reflexivity).
  assert (Hin : forall i c, (355 - 49 <= i < 355 + 49)%Z ->
                            In c (heading_tick self i) -> In c (drawHeadingIndicator self)).
  { intros i c Hi Hc. unfold drawHeadingIndicator. rewrite !in_app_iff.
    right; left. apply in_flat_map. exists i. split; [| exact Hc].
    apply PyFacts.In_range. exact Hi. }
  split; [| split; [| split; [| split; [| split; [| split]]]]].
  - intros Hall. specialize (Hall 360%Z _ _ H360). vm_compute in Hall. discriminate.
  - apply (Hin 360%Z); [lia | exact H360].
  - vm_compute. reflexivity.
  - vm_compute. reflexivity.
  - apply (Hin 370%Z); [lia | exact H370].
  - vm_compute. reflexivity.
  - vm_compute. reflexivity.
Qed.

(** ** Optional channels *)

Module ChannelFacts.
Import PainterFacts.

Lemma drawPitchIndicator_split (self : ArtificialHorizon) (subs : Subscribers) :
  drawPitchIndicator self subs = pitch_ladder self ++ pitch_command self subs.
Proof. reflexivity. Qed.

Lemma drawAirspeedIndicator_split (self : ArtificialHorizon) (subs : Subscribers) :
  drawAirspeedIndicator self subs
  = airspeed_scale self ++ airspeed_command self subs ++ airspeed_pointer self.
Proof.
  unfold drawAirspeedIndicator, airspeed_scale, airspeed_pointer.
  rewrite <- !app_assoc. reflexivity.
Qed.

Lemma drawAltitudeIndicator_split (self : ArtificialHorizon) (subs : Subscribers) :
  drawAltitudeIndicator self subs
  = altitude_scale self ++ altitude_command self subs ++ altitude_pointer self.
Proof.
  unfold drawAltitudeIndicator, altitude_scale, altitude_pointer.
  rewrite <- !app_assoc. reflexivity.
Qed.

(** Only the two tapes ever draw a convex polygon. *)
Lemma frame_convex (self : ArtificialHorizon) (subs : Subscribers) :
  filter is_convex_polygon (draw self subs)
  = airspeed_command self subs ++ altitude_command self subs.
Proof.
  unfold draw, frame_entry_to_exit, screen_overlays.
  rewrite !filter_app.
  rewrite MarkerFacts.airspeed_convex, MarkerFacts.altitude_convex.
  assert (Hpitch : filter is_convex_polygon (drawPitchIndicator self subs) = []).
  { unfold drawPitchIndicator. rewrite filter_app.
    rewrite MarkerFacts.filter_flat_map_nil.
    - unfold pitch_command, command_marker.
      destruct (conin_enabled (conin subs)); [| reflexivity].
      destruct (in_window self (command_height self subs)); reflexivity.
    - intros i. unfold major_marker, minor_marker.
      destruct (in_window self (major_height self i));
        destruct (in_window self (minor_height self i)); reflexivity. }
  assert (Hturn : filter is_convex_polygon (drawTurnIndicator self) = []).
  { unfold drawTurnIndicator. rewrite !filter_app.
    rewrite MarkerFacts.filter_flat_map_nil; [reflexivity |].
    intros a. reflexivity. }
  assert (Hhead : filter is_convex_polygon (drawHeadingIndicator self) = []).
  { unfold drawHeadingIndicator. rewrite !filter_app.
    rewrite MarkerFacts.filter_flat_map_nil; [reflexivity |].
    intros i. unfold heading_tick. destruct (i mod 10 =? 0)%Z; reflexivity. }
  assert (Hsat : filter is_convex_polygon (drawNumSatellites self) = []).
  { unfold drawNumSatellites. destruct (numSat self <? 4)%Z; reflexivity. }
  assert (Hbat : filter is_convex_polygon (drawBatteryMonitor self subs) = []).
  { unfold drawBatteryMonitor. destruct (battery_enabled (battery subs)); reflexivity. }
  rewrite Hpitch, Hturn, Hhead, Hsat, Hbat.
  simpl. rewrite app_nil_r. reflexivity.
Qed.

Lemma pen_run_flat_map (A : Type) (f : A -> Trace) (l : list A) :
  (forall a q, pen (run (f a) q) = pen q) ->
  forall q, pen (run (flat_map f l) q) = pen q.
Proof.
  intros Hf. induction l as [| a l IH]; intros q; [reflexivity |].
  simpl. rewrite run_app, IH. apply Hf.
Qed.

(** When the ladder has been drawn the pen is the one [drawGround] set. *)
Lemma pen_after_ladder (self : ArtificialHorizon) (painter : QPainter) :
  pen (run (drawSky self ++ enter_roll_pitch self ++ drawGround self ++ pitch_ladder self)
           painter)
  = ladder_pen.
Proof.
  rewrite !app_assoc, run_app. unfold pitch_ladder.
  rewrite pen_run_flat_map; [reflexivity |].
  intros i q. unfold major_marker, minor_marker.
  destruct (in_window self (major_height self i));
    destruct (in_window self (minor_height self i)); reflexivity.
Qed.

(** The commanded-pitch block sets its own pen and puts the pen of the
    ladder back. *)
Lemma pitch_command_neutral (self : ArtificialHorizon) (subs : Subscribers) (q : QPainter) :
  pen q = ladder_pen ->
  pen (run (pitch_command self subs) q) = pen q
  /\ brush (run (pitch_command self subs) q) = brush q
  /\ worldTransform (run (pitch_command self subs) q) = worldTransform q.
Proof.
  intros Hq. unfold pitch_command, command_marker.
  destruct (conin_enabled (conin subs)); [| repeat split].
  destruct (in_window self (command_height self subs)); simpl; rewrite Hq; repeat split.
Qed.

Lemma commands_neutral (self : ArtificialHorizon) (subs : Subscribers) (q : QPainter) :
  (pen (run (airspeed_command self subs) q) = pen q
   /\ brush (run (airspeed_command self subs) q) = brush q
   /\ worldTransform (run (airspeed_command self subs) q) = worldTransform q)
  /\ (pen (run (altitude_command self subs) q) = pen q
      /\ brush (run (altitude_command self subs) q) = brush q
      /\ worldTransform (run (altitude_command self subs) q) = worldTransform q).
Proof.
  rewrite MarkerFacts.airspeed_command_spec, MarkerFacts.altitude_command_spec.
  destruct (concom_enabled (concom subs)); [| repeat split].
  destruct (Py.le_le _ (va_c_y self subs) _);
    destruct (Py.le_le _ (alt_c_y self subs) _); repeat split.
Qed.

End ChannelFacts.

(** C8.  Optional channels.  Whatever channels are enabled:

    - the redraw issues the calls of every renderer in the order of the
      pipeline, with the three overlays that read a channel at fixed places:
      the commanded pitch after the ladder, the commanded speed and altitude
      inside their tapes, the battery bar last;
    - every call of every renderer or renderer part that reads no channel is
      in the frame, and each of them paints: the sky, the horizon line, the
      pointer of the turn indicator, the wings of the aircraft symbol, the
      two tape boxes with their readouts, the heading readout and the
      satellite count are there;
    - a disabled channel makes its overlay empty: no commanded pitch marker,
      no triangle (no convex polygon in the whole frame), no battery call;
    - an enabled overlay is in the frame: with the battery enabled the red bar
      is filled, with the commanded values enabled the triangles in range are
      drawn, with the commanded pitch enabled its pen is set;
    - switching one channel off removes the calls of its overlay from the
      frame and changes no other call, the other overlays included;
    - the overlays leave the pen, the brush and the transform as they found
      them, so what is painted after them does not depend on them. *)
Theorem absent_channel_suppresses_only_its_overlay
        (self0 : ArtificialHorizon) (subs : Subscribers) (painter : QPainter) :
  let self := fst (drawArtificialHorizon self0 subs) in
  let frame := snd (drawArtificialHorizon self0 subs) in
  frame
  = drawSky self ++ enter_roll_pitch self ++ drawGround self ++ pitch_ladder self
    ++ pitch_command self subs
    ++ exit_pitch self ++ drawTurnIndicator self ++ exit_roll self
    ++ drawAircraftSymbol self ++ airspeed_scale self
    ++ airspeed_command self subs
    ++ airspeed_pointer self ++ altitude_scale self
    ++ altitude_command self subs
    ++ altitude_pointer self ++ drawHeadingIndicator self ++ drawNumSatellites self
    ++ drawOutputIndicator self
    ++ drawBatteryMonitor self subs
  /\ (forall c, In c (unconditional self) -> In c frame)
  /\ (In (fillRect (mkRect 0 0 (width self) (height self))
                   (mkBrush (QColor3 38 89 242) SolidPattern)) (drawSky self)
      /\ In (drawLine (-300) (height self / 2)%Z (width self + 600)%Z (height self / 2)%Z)
            (drawGround self)
      /\ In (turn_pointer self) (drawTurnIndicator self)
      /\ In (drawLine (width self * 0.25) (height self / 2)%Z
                      (width self * (0.25 + 0.1)) (height self / 2)%Z)
            (drawAircraftSymbol self)
      /\ drawn_texts (airspeed_pointer self)
         = [(Py.str (speed self) ++ " m/s")%string; "Airspeed (m/s IAS)"]
      /\ drawn_texts (altitude_pointer self)
         = [(Py.str (altitude self) ++ " m")%string; "Altitude"]
      /\ In (Py.str (heading self) ++ degree_sign)%string
            (drawn_texts (drawHeadingIndicator self))
      /\ drawn_texts (drawNumSatellites self)
         = [("GPS: " ++ Py.str (numSat self) ++ " satellites")%string])
  /\ (conin_enabled (conin subs) = false -> pitch_command self subs = [])
  /\ (concom_enabled (concom subs) = false ->
      airspeed_command self subs = [] /\ altitude_command self subs = []
      /\ filter is_convex_polygon frame = [])
  /\ (battery_enabled (battery subs) = false -> drawBatteryMonitor self subs = [])
  /\ ((battery_enabled (battery subs) = true ->
       In (fillRect (mkRect 0 (0.8 * height self) (width self * 0.13) (0.05 * height self))
                    (mkBrush (Global red) SolidPattern)) frame)
      /\ (concom_enabled (concom subs) = true ->
          (panel_top self <= va_c_y self subs /\ va_c_y self subs <= panel_bottom self ->
           In (speed_triangle self (va_c_y self subs)) frame)
          /\ (panel_top self <= alt_c_y self subs /\ alt_c_y self subs <= panel_bottom self ->
              In (altitude_triangle self (alt_c_y self subs)) frame))
      /\ (conin_enabled (conin subs) = true -> In (setPen command_pen) frame))
  /\ (draw self subs
      = (drawSky self ++ enter_roll_pitch self ++ drawGround self ++ pitch_ladder self)
        ++ pitch_command self subs
        ++ (exit_pitch self ++ drawTurnIndicator self ++ exit_roll self
            ++ screen_overlays self subs)
      /\ draw self (without_conin subs)
         = (drawSky self ++ enter_roll_pitch self ++ drawGround self ++ pitch_ladder self)
           ++ (exit_pitch self ++ drawTurnIndicator self ++ exit_roll self
               ++ screen_overlays self subs))
  /\ (draw self subs
      = before_speed_marker self subs ++ airspeed_command self subs
        ++ between_markers self ++ altitude_command self subs
        ++ after_altitude_marker self subs
      /\ draw self (without_concom subs)
         = before_speed_marker self subs ++ between_markers self
           ++ after_altitude_marker self subs)
  /\ draw self subs = draw self (without_battery subs) ++ drawBatteryMonitor self subs
  /\ (let before :=
        run (drawSky self ++ enter_roll_pitch self ++ drawGround self ++ pitch_ladder self)
            painter in
      let after := run (pitch_command self subs) before in
      pen after = pen before /\ brush after = brush before
      /\ worldTransform after = worldTransform before)
  /\ (forall q,
         (pen (run (airspeed_command self subs) q) = pen q
          /\ brush (run (airspeed_command self subs) q) = brush q
          /\ worldTransform (run (airspeed_command self subs) q) = worldTransform q)
         /\ (pen (run (altitude_command self subs) q) = pen q
             /\ brush (run (altitude_command self subs) q) = brush q
             /\ worldTransform (run (altitude_command self subs) q) = worldTransform q)).
Proof.
  intros self frame.
  change frame with (draw self subs).
  assert (Hsplit :
            draw self subs
            = drawSky self ++ enter_roll_pitch self ++ drawGround self ++ pitch_ladder self
              ++ pitch_command self subs
              ++ exit_pitch self ++ drawTurnIndicator self ++ exit_roll self
              ++ drawAircraftSymbol self ++ airspeed_scale self
              ++ airspeed_command self subs
              ++ airspeed_pointer self ++ altitude_scale self
              ++ altitude_command self subs
              ++ altitude_pointer self ++ drawHeadingIndicator self ++ drawNumSatellites self
              ++ drawOutputIndicator self
              ++ drawBatteryMonitor self subs).
  { unfold draw, frame_entry_to_exit, screen_overlays.
    rewrite ChannelFacts.drawPitchIndicator_split,
      ChannelFacts.drawAirspeedIndicator_split,
      ChannelFacts.drawAltitudeIndicator_split.
    rewrite <- !app_assoc. reflexivity. }
  assert (Hconin :
            draw self subs
            = (drawSky self ++ enter_roll_pitch self ++ drawGround self ++ pitch_ladder self)
              ++ pitch_command self subs
              ++ (exit_pitch self ++ drawTurnIndicator self ++ exit_roll self
                  ++ screen_overlays self subs)).
  { unfold draw, frame_entry_to_exit.
    rewrite ChannelFacts.drawPitchIndicator_split.
    rewrite <- !app_assoc. reflexivity. }
  assert (Hconcom :
            draw self subs
            = before_speed_marker self subs ++ airspeed_command self subs
              ++ between_markers self ++ altitude_command self subs
              ++ after_altitude_marker self subs).
  { unfold draw, screen_overlays, before_speed_marker, between_markers,
      after_altitude_marker.
    rewrite ChannelFacts.drawAirspeedIndicator_split,
      ChannelFacts.drawAltitudeIndicator_split.
    rewrite <- !app_assoc. reflexivity. }
  split; [exact Hsplit |].
  split.
  { intros c Hc. rewrite Hsplit. unfold unconditional in Hc.
    rewrite !in_app_iff in Hc. rewrite !in_app_iff. tauto. }
  split.
  { split; [left; reflexivity |].
    split; [right; right; left; reflexivity |].
    split.
    { change (drawTurnIndicator self)
        with (turn_arc self ++ flat_map (turn_tick self) angles
              ++ rotate_about (turn_xCenter self) (turn_yCenter self) (roll self)
              ++ [turn_pointer self]
              ++ rotate_about (turn_xCenter self) (turn_yCenter self) (- roll self)).
      rewrite !in_app_iff. right; right; right; left; left; reflexivity. }
    split; [right; right; right; left; reflexivity |].
    split; [reflexivity |]. split; [reflexivity |].
    split; [| unfold drawNumSatellites; destruct (numSat self <? 4)%Z; reflexivity].
    unfold drawHeadingIndicator. rewrite !TraceFacts.drawn_texts_app, !in_app_iff.
    right; right. left. reflexivity. }
  split; [intros Hoff; unfold pitch_command; rewrite Hoff; reflexivity |].
  split.
  { intros Hoff.
    assert (Hs : airspeed_command self subs = [])
      by (rewrite MarkerFacts.airspeed_command_spec, Hoff; reflexivity).
    assert (Ha : altitude_command self subs = [])
      by (rewrite MarkerFacts.altitude_command_spec, Hoff; reflexivity).
    split; [exact Hs |]. split; [exact Ha |].
    rewrite ChannelFacts.frame_convex, Hs, Ha. reflexivity. }
  split; [intros Hoff; unfold drawBatteryMonitor; rewrite Hoff; reflexivity |].
  split.
  { split; [| split].
    - intros Hon. rewrite Hsplit, !in_app_iff.
      do 18 right. unfold drawBatteryMonitor. rewrite Hon.
      right; left. reflexivity.
    - intros Hon. split; intros Hm; apply PyFacts.le_le_spec in Hm.
      + rewrite Hsplit, !in_app_iff. do 10 right. left.
        rewrite MarkerFacts.airspeed_command_spec, Hon, Hm. left. reflexivity.
      + rewrite Hsplit, !in_app_iff. do 13 right. left.
        rewrite MarkerFacts.altitude_command_spec, Hon, Hm. left. reflexivity.
    - intros Hon. rewrite Hsplit, !in_app_iff. do 4 right. left.
      unfold pitch_command. rewrite Hon. left. reflexivity. }
  split; [split; [exact Hconin |] |].
  { unfold draw, frame_entry_to_exit.
    rewrite ChannelFacts.drawPitchIndicator_split.
    change (pitch_command self (without_conin subs)) with (@nil PainterCall).
    rewrite <- !app_assoc. reflexivity. }
  split; [split; [exact Hconcom |] |].
  { unfold draw, screen_overlays, before_speed_marker, between_markers,
      after_altitude_marker.
    rewrite ChannelFacts.drawAirspeedIndicator_split,
      ChannelFacts.drawAltitudeIndicator_split.
    change (airspeed_command self (without_concom subs)) with (@nil PainterCall).
    change (altitude_command self (without_concom subs)) with (@nil PainterCall).
    rewrite <- !app_assoc. reflexivity. }
  split.
  { unfold draw, screen_overlays.
    change (drawBatteryMonitor self (without_battery subs)) with (@nil PainterCall).
    rewrite <- !app_assoc, app_nil_l. reflexivity. }
  split.
  - cbv zeta. apply ChannelFacts.pitch_command_neutral.
    apply ChannelFacts.pen_after_ladder.
  - apply ChannelFacts.commands_neutral.
Qed.

(** * Further properties of the widget *)

(** ** Telemetry extraction *)

(** X1.  What the redraw keeps of a snapshot (lines 91-96).  The heading is
    in [0, 360) and congruent to the floor of the heading in degrees; roll,
    pitch, speed and altitude are floors, so each is at most the telemetry
    value and less than one below it; the satellite count is copied; the
    viewport and [pitchInterval] are untouched.  The attributes a redraw
    leaves have no effect on the next redraw. *)
Theorem extract_floors_and_normalises
        (self : ArtificialHorizon) (subs subs' : Subscribers) :
  let self' := fst (drawArtificialHorizon self subs) in
  (0 <= heading self' < 360)%Z
  /\ (heading self' = Py.floor (chi_deg (state subs)) mod 360)%Z
  /\ (roll self' <= phi_deg (state subs) /\ phi_deg (state subs) < (roll self' + 1)%Z)
  /\ (pitch self' <= theta_deg (state subs) /\ theta_deg (state subs) < (pitch self' + 1)%Z)
  /\ (speed self' <= Va (state subs) /\ Va (state subs) < (speed self' + 1)%Z)
  /\ (altitude self' <= alt (state subs) /\ alt (state subs) < (altitude self' + 1)%Z)
  /\ numSat self' = gps_numSat (gps subs)
  /\ width self' = width self /\ height self' = height self
  /\ pitchInterval self' = pitchInterval self
  /\ drawArtificialHorizon self' subs' = drawArtificialHorizon self subs'.
Proof.
  cbv zeta. simpl.
  split; [apply Z.mod_pos_bound; lia |].
  split; [reflexivity |].
  repeat split; try apply Qfloor_le; try apply Qlt_floor.
Qed.

(** ** Heading tape: wrapping and labels *)

(** X2.  The wrapping of a candidate (lines 180-182) always lands in
    [0, 360); the guard [if i < 0: i += 360] changes nothing, the result is
    [i % 360] for every integer; wrapping twice is wrapping once; and a
    candidate already in [0, 360) is left alone. *)
Theorem wrap360_is_mod_360 (i : Z) :
  (0 <= wrap360 i < 360)%Z
  /\ wrap360 i = (i mod 360)%Z
  /\ wrap360 (wrap360 i) = wrap360 i
  /\ ((0 <= i < 360)%Z -> wrap360 i = i).
Proof.
  rewrite !HeadingFacts.wrap360_mod.
  split; [apply Z.mod_pos_bound; lia |].
  split; [reflexivity |].
  split; [apply Z.mod_mod; lia |].
  intros Hi. apply Z.mod_small. exact Hi.
Qed.

Module LabelFacts.

Lemma labels_checked :
  forallb (fun k => if (k mod 10 =? 0)%Z
                    then String.eqb (heading_text k) (cardinal_or_number k)
                    else true)
          (Py.range 0 360) = true.
Proof. vm_compute. reflexivity. Qed.

Lemma mod_360_mod_10 (i : Z) : ((i mod 360) mod 10 = i mod 10)%Z.
Proof.
  rewrite (Z.div_mod i 360) at 2 by lia.
  replace (360 * (i / 360) + i mod 360)%Z with (i mod 360 + (36 * (i / 360)) * 10)%Z by lia.
  symmetry. apply Z_mod_plus_full.
Qed.

End LabelFacts.

(** X3.  The label of a tick.  A tick is drawn for multiples of 10 only;
    for such a candidate the label is N, E, S or W when the candidate wraps
    to 0, 90, 180 or 270, and the decimal of the wrapped candidate
    otherwise. *)
Theorem heading_tick_label_is_cardinal_or_number (i : Z) :
  (i mod 10 = 0)%Z ->
  heading_text (wrap360 i) = cardinal_or_number (i mod 360).
Proof.
  intros Hi. rewrite HeadingFacts.wrap360_mod.
  pose proof LabelFacts.labels_checked as Hall.
  rewrite forallb_forall in Hall.
  assert (Hk : (0 <= i mod 360 < 360)%Z) by (apply Z.mod_pos_bound; lia).
  specialize (Hall (i mod 360)%Z (proj2 (PyFacts.In_range 0 360 _) Hk)).
  rewrite LabelFacts.mod_360_mod_10, Hi in Hall. simpl in Hall.
  apply String.eqb_eq. exact Hall.
Qed.

(** At the candidate 450 the label is E; at -10 it is 350. *)
Lemma heading_tick_label_is_cardinal_or_number_witness :
  (450 mod 10 = 0)%Z /\ heading_text (wrap360 450) = "E"
  /\ heading_text (wrap360 (-10)) = "350".
Proof.
  split; [reflexivity |]. split.
  - exact (heading_tick_label_is_cardinal_or_number 450 eq_refl).
  - exact (heading_tick_label_is_cardinal_or_number (-10) eq_refl).
Defined.

(** ** Tapes: the ticks that are drawn, and where *)

Module TickFacts.

Lemma flat_map_singleton (A B : Type) (f : A -> B) (l : list A) :
  flat_map (fun a => [f a]) l = map f l.
Proof. induction l as [| a l IH]; [reflexivity | simpl; f_equal; exact IH]. Qed.

Lemma airspeed_command_lines (self : ArtificialHorizon) (subs : Subscribers) :
  drawn_lines (airspeed_command self subs) = [].
Proof.
  rewrite MarkerFacts.airspeed_command_spec.
  destruct (concom_enabled (concom subs)); [| reflexivity].
  destruct (Py.le_le _ _ _); reflexivity.
Qed.

Lemma altitude_command_lines (self : ArtificialHorizon) (subs : Subscribers) :
  drawn_lines (altitude_command self subs) = [].
Proof.
  rewrite MarkerFacts.altitude_command_spec.
  destruct (concom_enabled (concom subs)); [| reflexivity].
  destruct (Py.le_le _ _ _); reflexivity.
Qed.

(** The lines of the speed tape are its ticks. *)
Lemma airspeed_lines (self : ArtificialHorizon) (subs : Subscribers) :
  drawn_lines (drawAirspeedIndicator self subs)
  = map (fun i =>
           let y := height self * 0.5 + ((speed self - i)%Z * 0.01 * height self) in
           (width self * 0.13 - 5, y, width self * 0.13, y))
        (airspeed_ticks self).
Proof.
  rewrite ChannelFacts.drawAirspeedIndicator_split.
  rewrite !LadderFacts.drawn_lines_app, airspeed_command_lines.
  unfold airspeed_scale. rewrite LadderFacts.drawn_lines_app, TapeFacts.airspeed_loop.
  rewrite LadderFacts.drawn_lines_flat_map. simpl.
  rewrite app_nil_r. apply flat_map_singleton.
Qed.

Lemma altitude_lines (self : ArtificialHorizon) (subs : Subscribers) :
  drawn_lines (drawAltitudeIndicator self subs)
  = map (fun i =>
           let x := width self - width self * 0.13 in
           let y := height self * 0.5 + ((altitude self - i)%Z * 0.01 * height self) in
           (x, y, x + 5, y))
        (altitude_ticks self).
Proof.
  rewrite ChannelFacts.drawAltitudeIndicator_split.
  rewrite !LadderFacts.drawn_lines_app, altitude_command_lines.
  unfold altitude_scale. rewrite !LadderFacts.drawn_lines_app, TapeFacts.altitude_loop.
  rewrite LadderFacts.drawn_lines_flat_map. simpl.
  rewrite !app_nil_r. apply flat_map_singleton.
Qed.

Lemma heading_lines (self : ArtificialHorizon) :
  drawn_lines (drawHeadingIndicator self)
  = map (fun i => (heading_tick_x self i, height self - height self * 0.1,
                   heading_tick_x self i, height self - height self * 0.1 + 5))
        (heading_ticks self).
Proof.
  unfold drawHeadingIndicator.
  rewrite !LadderFacts.drawn_lines_app, HeadingFacts.heading_loop.
  rewrite LadderFacts.drawn_lines_flat_map. simpl.
  rewrite app_nil_r. apply flat_map_singleton.
Qed.

Lemma airspeed_texts (self : ArtificialHorizon) :
  drawn_texts (flat_map (airspeed_tick self) (Py.range (speed self - 29) (speed self + 29)))
  = map Py.str (airspeed_ticks self).
Proof.
  rewrite TapeFacts.airspeed_loop, TraceFacts.drawn_texts_flat_map.
  apply flat_map_singleton.
Qed.

Lemma altitude_texts (self : ArtificialHorizon) :
  drawn_texts (flat_map (altitude_tick self) (Py.range (altitude self - 29) (altitude self + 29)))
  = map Py.str (altitude_ticks self).
Proof.
  rewrite TapeFacts.altitude_loop, TraceFacts.drawn_texts_flat_map.
  apply flat_map_singleton.
Qed.

(** Bounds on a scaled offset: for [lo <= d <= hi] and a non-negative
    extent [e], the position [e*0.5 + d*0.01*e]. *)
Lemma scaled_offset_bounds (e : Q) (d lo hi : Z) :
  0 <= e -> (lo <= d <= hi)%Z ->
  e * 0.5 + lo * 0.01 * e <= e * 0.5 + d * 0.01 * e
  /\ e * 0.5 + d * 0.01 * e <= e * 0.5 + hi * 0.01 * e.
Proof.
  intros He [Hlo Hhi].
  rewrite Zle_Qle in Hlo. rewrite Zle_Qle in Hhi.
  split.
  - apply Qplus_le_r. apply Qmult_le_compat_r; [| exact He].
    apply Qmult_le_compat_r; [exact Hlo | discriminate].
  - apply Qplus_le_r. apply Qmult_le_compat_r; [| exact He].
    apply Qmult_le_compat_r; [exact Hhi | discriminate].
Qed.

(** Linear and product arithmetic on rationals, with [/ 2] spelled out. *)
Ltac qarith := unfold Qdiv; change (/ 2) with (1 # 2); first [lra | nra].

Lemma vertical_tick_in_panel (h d : Z) :
  (0 <= h)%Z -> (-28 <= d <= 29)%Z ->
  (h - h * 0.6) / 2 <= h * 0.5 + d * 0.01 * h
  /\ h * 0.5 + d * 0.01 * h <= (h + h * 0.6) / 2.
Proof.
  intros Hh [Hlo Hhi].
  rewrite Zle_Qle in Hh, Hlo, Hhi.
  change (inject_Z 0) with 0 in Hh.
  change (inject_Z (-28)) with (-28) in Hlo. change (inject_Z 29) with 29 in Hhi.
  revert Hh Hlo Hhi. generalize (inject_Z h) (inject_Z d). intros e q He Hlo Hhi.
  split; qarith.
Qed.

Lemma horizontal_tick_in_panel (w d : Z) :
  (0 <= w)%Z -> (-48 <= d <= 49)%Z ->
  0 <= w * 0.5 - d * 0.01 * w /\ w * 0.5 - d * 0.01 * w <= w.
Proof.
  intros Hw [Hlo Hhi].
  rewrite Zle_Qle in Hw, Hlo, Hhi.
  change (inject_Z 0) with 0 in Hw.
  change (inject_Z (-48)) with (-48) in Hlo. change (inject_Z 49) with 49 in Hhi.
  revert Hw Hlo Hhi. generalize (inject_Z w) (inject_Z d). intros e q He Hlo Hhi.
  split; qarith.
Qed.

End TickFacts.

(** X4.  Which candidates get a tick.  The speed tape draws a tick, labelled
    with its decimal, exactly for the multiples of 10 from 29 below the speed
    to 28 above it that are not negative; the altitude tape for the multiples
    of 10 from 29 below the altitude to 28 above it, negative ones included;
    the heading tape for the multiples of 10 from 49 below the heading to 48
    above it. *)
Theorem tape_ticks_exact (self : ArtificialHorizon) :
  (forall i, In i (airspeed_ticks self)
             <-> (speed self - 29 <= i <= speed self + 28 /\ i mod 10 = 0 /\ 0 <= i)%Z)
  /\ drawn_texts (flat_map (airspeed_tick self)
                           (Py.range (speed self - 29) (speed self + 29)))
     = map Py.str (airspeed_ticks self)
  /\ (forall i, In i (altitude_ticks self)
                <-> (altitude self - 29 <= i <= altitude self + 28 /\ i mod 10 = 0)%Z)
  /\ drawn_texts (flat_map (altitude_tick self)
                           (Py.range (altitude self - 29) (altitude self + 29)))
     = map Py.str (altitude_ticks self)
  /\ (forall i, In i (heading_ticks self)
                <-> (heading self - 49 <= i <= heading self + 48 /\ i mod 10 = 0)%Z)
  /\ drawn_texts (flat_map (heading_tick self)
                           (Py.range (heading self - 49) (heading self + 49)))
     = map (fun i => heading_text (wrap360 i)) (heading_ticks self).
Proof.
  split; [apply TapeFacts.In_airspeed_ticks |].
  split; [apply TickFacts.airspeed_texts |].
  split; [apply TapeFacts.In_altitude_ticks |].
  split; [apply TickFacts.altitude_texts |].
  split; [apply TapeFacts.In_heading_ticks |].
  rewrite HeadingFacts.heading_loop, TraceFacts.drawn_texts_flat_map.
  apply TickFacts.flat_map_singleton.
Qed.

(** X5.  Every tick is drawn inside its panel.  On a viewport of
    non-negative size, every line the speed tape and the altitude tape draw is
    horizontal and lies between the top and the bottom edge of the panel, and
    every line the heading tape draws is vertical, 5 long, and lies between
    the left and the right edge of the viewport. *)
Theorem tape_ticks_inside_panel (self : ArtificialHorizon) (subs : Subscribers) :
  (0 <= height self)%Z -> (0 <= width self)%Z ->
  (forall x1 y1 x2 y2,
      In (x1, y1, x2, y2) (drawn_lines (drawAirspeedIndicator self subs)) ->
      y2 = y1 /\ panel_top self <= y1 /\ y1 <= panel_bottom self)
  /\ (forall x1 y1 x2 y2,
         In (x1, y1, x2, y2) (drawn_lines (drawAltitudeIndicator self subs)) ->
         y2 = y1 /\ panel_top self <= y1 /\ y1 <= panel_bottom self)
  /\ (forall x1 y1 x2 y2,
         In (x1, y1, x2, y2) (drawn_lines (drawHeadingIndicator self)) ->
         x2 = x1 /\ y2 = y1 + 5 /\ 0 <= x1 /\ x1 <= width self).
Proof.
  intros Hh Hw. split; [| split]; intros x1 y1 x2 y2 Hin.
  - rewrite TickFacts.airspeed_lines in Hin. apply in_map_iff in Hin.
    destruct Hin as [i [Heq Hi]]. apply TapeFacts.In_airspeed_ticks in Hi.
    inversion Heq; subst. split; [reflexivity |].
    apply TickFacts.vertical_tick_in_panel; [exact Hh | lia].
  - rewrite TickFacts.altitude_lines in Hin. apply in_map_iff in Hin.
    destruct Hin as [i [Heq Hi]]. apply TapeFacts.In_altitude_ticks in Hi.
    inversion Heq; subst. split; [reflexivity |].
    apply TickFacts.vertical_tick_in_panel; [exact Hh | lia].
  - rewrite TickFacts.heading_lines in Hin. apply in_map_iff in Hin.
    destruct Hin as [i [Heq Hi]]. apply TapeFacts.In_heading_ticks in Hi.
    inversion Heq; subst. split; [reflexivity |]. split; [reflexivity |].
    apply TickFacts.horizontal_tick_in_panel; [exact Hw | lia].
Qed.

(** The theorem on the default 600 by 600 viewport at speed 47, altitude
    1500 and heading 270: the speed tick of 20 is at y = 462, inside the
    panel from 120 to 480. *)
Lemma tape_ticks_inside_panel_witness :
  let self := with_telemetry initUI 0 0 47 1500 270 6 in
  (0 <= height self)%Z /\ (0 <= width self)%Z
  /\ In (width self * 0.13 - 5, height self * 0.5 + ((47 - 20)%Z * 0.01 * height self),
         width self * 0.13, height self * 0.5 + ((47 - 20)%Z * 0.01 * height self))
        (drawn_lines (drawAirspeedIndicator self no_channels))
  /\ panel_top self <= height self * 0.5 + ((47 - 20)%Z * 0.01 * height self)
  /\ height self * 0.5 + ((47 - 20)%Z * 0.01 * height self) <= panel_bottom self.
Proof.
  intros self.
  assert (Hh : (0 <= height self)%Z) by (vm_compute; discriminate).
  assert (Hw : (0 <= width self)%Z) by (vm_compute; discriminate).
  assert (Hin : In (width self * 0.13 - 5,
                    height self * 0.5 + ((47 - 20)%Z * 0.01 * height self),
                    width self * 0.13,
                    height self * 0.5 + ((47 - 20)%Z * 0.01 * height self))
                   (drawn_lines (drawAirspeedIndicator self no_channels))).
  { rewrite TickFacts.airspeed_lines. apply in_map_iff. exists 20%Z.
    split; [reflexivity |]. vm_compute. tauto. }
  split; [exact Hh |]. split; [exact Hw |]. split; [exact Hin |].
  destruct (tape_ticks_inside_panel self no_channels Hh Hw) as [Hs _].
  exact (proj2 (Hs _ _ _ _ Hin)).
Defined.

Module CountFacts.

Lemma range_shift (a n k : Z) :
  Py.range (a + k) (a + k + n) = map (fun x => (x + k)%Z) (Py.range a (a + n)).
Proof.
  unfold Py.range. rewrite map_map.
  replace (a + k + n - (a + k))%Z with (a + n - a)%Z by lia.
  apply map_ext. intros x. lia.
Qed.

Lemma filter_multiple_shift (q : Z) (l : list Z) :
  filter multiple_of_10 (map (fun x => (x + q * 10)%Z) l)
  = map (fun x => (x + q * 10)%Z) (filter multiple_of_10 l).
Proof.
  induction l as [| x l IH]; [reflexivity |].
  assert (Hx : multiple_of_10 (x + q * 10) = multiple_of_10 x)
    by (unfold multiple_of_10; rewrite Z_mod_plus_full; reflexivity).
  cbn [filter map]. rewrite Hx, IH.
  destruct (multiple_of_10 x); reflexivity.
Qed.

(** The number of multiples of 10 among [n] consecutive integers depends on
    the residue of the first one only. *)
Lemma count_by_residue (a n : Z) :
  List.length (filter multiple_of_10 (Py.range a (a + n)))
  = List.length (filter multiple_of_10 (Py.range (a mod 10) (a mod 10 + n))).
Proof.
  assert (Ha : a = (a mod 10 + (a / 10) * 10)%Z) by (pose proof (Z.div_mod a 10); lia).
  set (r := (a mod 10)%Z) in *. set (q := (a / 10)%Z) in *.
  rewrite Ha. rewrite range_shift.
  rewrite (filter_multiple_shift q), length_map. reflexivity.
Qed.

Lemma count_in_window (n : Z) (lo hi : nat) :
  forallb (fun r => let c := List.length (filter multiple_of_10 (Py.range r (r + n))) in
                    (lo <=? c)%nat && (c <=? hi)%nat)
          (Py.range 0 10) = true ->
  forall a, (lo <= List.length (filter multiple_of_10 (Py.range a (a + n))) <= hi)%nat.
Proof.
  intros Hall a. rewrite count_by_residue.
  rewrite forallb_forall in Hall.
  assert (Hr : In (a mod 10)%Z (Py.range 0 10)).
  { apply PyFacts.In_range. apply Z.mod_pos_bound. lia. }
  specialize (Hall _ Hr). cbv zeta in Hall.
  apply andb_true_iff in Hall. destruct Hall as [H1 H2].
  apply Nat.leb_le in H1. apply Nat.leb_le in H2. lia.
Qed.

Lemma filter_and_length (A : Type) (f g : A -> bool) (l : list A) :
  (List.length (filter (fun a => f a && g a) l) <= List.length (filter f l))%nat.
Proof.
  induction l as [| a l IH]; [apply Nat.le_refl |].
  simpl. destruct (f a); destruct (g a); simpl; lia.
Qed.

End CountFacts.

(** X6.  How many ticks a tape shows.  Whatever the telemetry, the
    altitude tape shows 5 or 6 ticks and the heading tape 9 or 10.  The speed
    tape shows at most 6; it shows none below a speed of -28, and 5 or 6 from
    a speed of 29 on, where no candidate is negative. *)
Theorem tape_tick_counts (self : ArtificialHorizon) :
  (5 <= List.length (altitude_ticks self) <= 6)%nat
  /\ (9 <= List.length (heading_ticks self) <= 10)%nat
  /\ (List.length (airspeed_ticks self) <= 6)%nat
  /\ ((speed self < -28)%Z -> airspeed_ticks self = [])
  /\ ((29 <= speed self)%Z -> (5 <= List.length (airspeed_ticks self) <= 6)%nat).
Proof.
  assert (H58 : forall a,
             (5 <= List.length (filter multiple_of_10 (Py.range a (a + 58))) <= 6)%nat)
    by (apply CountFacts.count_in_window; vm_compute; reflexivity).
  assert (H98 : forall a,
             (9 <= List.length (filter multiple_of_10 (Py.range a (a + 98))) <= 10)%nat)
    by (apply CountFacts.count_in_window; vm_compute; reflexivity).
  split; [| split; [| split; [| split]]].
  - unfold altitude_ticks.
    replace (altitude self + 29)%Z with (altitude self - 29 + 58)%Z by lia. apply H58.
  - unfold heading_ticks.
    replace (heading self + 49)%Z with (heading self - 49 + 98)%Z by lia. apply H98.
  - unfold airspeed_ticks.
    eapply Nat.le_trans; [apply CountFacts.filter_and_length |].
    replace (speed self + 29)%Z with (speed self - 29 + 58)%Z by lia. apply H58.
  - intros Hs. destruct (airspeed_ticks self) as [| i l] eqn:Ht; [reflexivity |].
    assert (Hi : In i (airspeed_ticks self)) by (rewrite Ht; left; reflexivity).
    apply TapeFacts.In_airspeed_ticks in Hi. lia.
  - intros Hs. unfold airspeed_ticks.
    rewrite (filter_ext_in _ multiple_of_10).
    + replace (speed self + 29)%Z with (speed self - 29 + 58)%Z by lia. apply H58.
    + intros i Hi. apply PyFacts.In_range in Hi.
      unfold multiple_of_10.
      replace (i >=? 0)%Z with true; [apply andb_true_r |].
      symmetry. apply Z.geb_le. lia.
Qed.

(** ** Pitch ladder in degrees *)

Module DegreeFacts.

Lemma below_upper (z : Z) : 0.013 * z < 0.35 <-> (z <= 26)%Z.
Proof.
  split.
  - intros H. destruct (Z_le_gt_dec z 26) as [Hz | Hz]; [exact Hz | exfalso].
    assert (Hq : 27 <= inject_Z z).
    { change 27 with (inject_Z 27). rewrite <- Zle_Qle. lia. }
    revert H Hq. generalize (inject_Z z). intros q H Hq. lra.
  - intros Hz. rewrite Zle_Qle in Hz. change (inject_Z 26) with 26 in Hz.
    revert Hz. generalize (inject_Z z). intros q Hz. lra.
Qed.

Lemma above_lower (z : Z) : - 0.35 < 0.013 * z <-> (-26 <= z)%Z.
Proof.
  split.
  - intros H. destruct (Z_le_gt_dec (-26) z) as [Hz | Hz]; [exact Hz | exfalso].
    assert (Hq : inject_Z z <= -27).
    { change (-27) with (inject_Z (-27)). rewrite <- Zle_Qle. lia. }
    revert H Hq. generalize (inject_Z z). intros q H Hq. lra.
  - intros Hz. rewrite Zle_Qle in Hz. change (inject_Z (-26)) with (-26) in Hz.
    revert Hz. generalize (inject_Z z). intros q Hz. lra.
Qed.

(** The window test on a height [0.5 - pitchInterval*d], for a marker [d]
    degrees above the horizon. *)
Lemma in_window_degrees (self : ArtificialHorizon) (d : Q) :
  pitchInterval self == 0.013 ->
  in_window self (0.5 - pitchInterval self * d) = true
  <-> - 0.35 < 0.013 * (d - pitch self) /\ 0.013 * (d - pitch self) < 0.35.
Proof.
  intros Hpi. rewrite LadderFacts.in_window_spec.
  unfold minHeight, maxHeight. rewrite Hpi.
  generalize (inject_Z (pitch self)). intros p.
  split; intros [H1 H2]; split; lra.
Qed.

Lemma major_height_degrees (self : ArtificialHorizon) (i : Z) :
  major_height self i == 0.5 - pitchInterval self * (10 * i)%Z.
Proof. unfold major_height. rewrite inject_Z_mult. change (inject_Z 10) with 10. ring. Qed.

Lemma minor_height_degrees (self : ArtificialHorizon) (i : Z) :
  minor_height self i == 0.5 - pitchInterval self * (10 * i + 5)%Z.
Proof.
  unfold minor_height, major_height. rewrite inject_Z_plus, inject_Z_mult.
  change (inject_Z 10) with 10. change (inject_Z 5) with 5. ring.
Qed.

Lemma in_window_compat (self : ArtificialHorizon) (h h' : Q) :
  h == h' -> in_window self h = in_window self h'.
Proof.
  intros He.
  destruct (in_window self h) eqn:H1; destruct (in_window self h') eqn:H2; trivial.
  - apply LadderFacts.in_window_spec in H1. apply LadderFacts.in_window_false in H2.
    rewrite He in H1. contradiction.
  - apply LadderFacts.in_window_spec in H2. apply LadderFacts.in_window_false in H1.
    rewrite <- He in H2. contradiction.
Qed.

Lemma in_window_rung (self : ArtificialHorizon) (z : Z) :
  pitchInterval self == 0.013 ->
  in_window self (0.5 - pitchInterval self * z) = true
  <-> (-26 <= z - pitch self <= 26)%Z.
Proof.
  intros Hpi. rewrite (in_window_degrees self z Hpi).
  rewrite <- below_upper, <- above_lower.
  unfold Zminus. rewrite inject_Z_plus, inject_Z_opp. tauto.
Qed.

End DegreeFacts.

(** X7.  Which rungs of the ladder show, in degrees.  With the
    [pitchInterval] of 0.013 that [initUI] sets, the major line of a rung [i]
    of the loop (from -9 to 8, at [10*i] degrees) is drawn exactly when it is
    within 26 degrees of the current pitch, and so is the minor line above it
    (at [10*i + 5] degrees).  Pitch and rungs being whole degrees, the nearest
    a line comes to an edge of the window is 0.001 of the height (at 27
    degrees). *)
Theorem ladder_markers_within_26_degrees (self : ArtificialHorizon) (i : Z) :
  pitchInterval self == 0.013 ->
  (-9 <= i <= 8)%Z ->
  (major_marker self i <> [] <-> (-26 <= 10 * i - pitch self <= 26)%Z)
  /\ (minor_marker self i <> [] <-> (-26 <= 10 * i + 5 - pitch self <= 26)%Z).
Proof.
  intros Hpi _. split.
  - rewrite <- (DegreeFacts.in_window_rung self _ Hpi).
    rewrite <- (DegreeFacts.in_window_compat self _ _ (DegreeFacts.major_height_degrees self i)).
    unfold major_marker.
    destruct (in_window self (major_height self i)); intuition congruence.
  - rewrite <- (DegreeFacts.in_window_rung self _ Hpi).
    rewrite <- (DegreeFacts.in_window_compat self _ _ (DegreeFacts.minor_height_degrees self i)).
    unfold minor_marker.
    destruct (in_window self (minor_height self i)); intuition congruence.
Qed.

(** On the widget as [initUI] leaves it (pitch 0): the rung of 20 degrees
    is drawn and the rung of 30 degrees is not. *)
Lemma ladder_markers_within_26_degrees_witness :
  pitchInterval initUI == 0.013
  /\ (-9 <= 2 <= 8)%Z /\ (-9 <= 3 <= 8)%Z
  /\ major_marker initUI 2 <> []
  /\ ~ major_marker initUI 3 <> [].
Proof.
  assert (Hpi : pitchInterval initUI == 0.013) by reflexivity.
  assert (H2 : (-9 <= 2 <= 8)%Z) by lia.
  assert (H3 : (-9 <= 3 <= 8)%Z) by lia.
  split; [exact Hpi |]. split; [exact H2 |]. split; [exact H3 |]. split.
  - apply (ladder_markers_within_26_degrees initUI 2 Hpi H2). simpl. lia.
  - intros H.
    apply (ladder_markers_within_26_degrees initUI 3 Hpi H3) in H.
    simpl in H. lia.
Defined.

(** ** Commanded markers in telemetry units *)

Module RangeFacts.

Lemma marker_in_panel (e q : Q) :
  0 < e ->
  ((e - e * 0.6) / 2 <= e * 0.5 + q * 0.01 * e /\ e * 0.5 + q * 0.01 * e <= (e + e * 0.6) / 2)
  <-> (-30 <= q /\ q <= 30).
Proof.
  intros He. unfold Qdiv. change (/ 2) with (1 # 2).
  split; intros [A B]; split; nra.
Qed.

Lemma marker_on_flat_viewport (q : Q) :
  (0 - 0 * 0.6) / 2 <= 0 * 0.5 + q * 0.01 * 0 /\ 0 * 0.5 + q * 0.01 * 0 <= (0 + 0 * 0.6) / 2.
Proof. unfold Qdiv. change (/ 2) with (1 # 2). split; lra. Qed.

End RangeFacts.

(** X8.  When a commanded marker shows, in telemetry units.  With the
    commanded values enabled, a viewport of positive height and a speed and
    altitude of magnitude at most 2^53 (which a float holds exactly): the
    speed tape draws its triangle whenever the commanded speed is within 29 of
    the current speed, and never when it is 31 or more away; the altitude tape
    does the same with the commanded and the current altitude.  (Between 29
    and 31 the marker is at most 0.01 of the height from an edge of the
    panel.) *)
Theorem commanded_markers_within_29_not_beyond_31
        (self : ArtificialHorizon) (subs : Subscribers) :
  concom_enabled (concom subs) = true ->
  (0 < height self)%Z ->
  (Z.abs (speed self) <= 2 ^ 53)%Z -> (Z.abs (altitude self) <= 2 ^ 53)%Z ->
  let ds := (speed self : Q) - Va_c (concom subs) in
  let da := (altitude self : Q) - h_c (concom subs) in
  (-29 <= ds /\ ds <= 29 ->
   filter is_convex_polygon (drawAirspeedIndicator self subs)
   = [speed_triangle self (va_c_y self subs)])
  /\ (ds <= -31 \/ 31 <= ds ->
      filter is_convex_polygon (drawAirspeedIndicator self subs) = [])
  /\ (-29 <= da /\ da <= 29 ->
      filter is_convex_polygon (drawAltitudeIndicator self subs)
      = [altitude_triangle self (alt_c_y self subs)])
  /\ (da <= -31 \/ 31 <= da ->
      filter is_convex_polygon (drawAltitudeIndicator self subs) = []).
Proof.
  intros Hen Hh _ _ ds da.
  rewrite MarkerFacts.airspeed_convex, MarkerFacts.altitude_convex.
  rewrite MarkerFacts.airspeed_command_spec, MarkerFacts.altitude_command_spec, Hen.
  rewrite Zlt_Qlt in Hh. change (inject_Z 0) with 0 in Hh.
  pose proof (RangeFacts.marker_in_panel (height self) ds Hh) as Hs.
  pose proof (RangeFacts.marker_in_panel (height self) da Hh) as Ha.
  fold (panel_top self) (panel_bottom self) in Hs, Ha.
  change (height self * 0.5 + ds * 0.01 * height self) with (va_c_y self subs) in Hs.
  change (height self * 0.5 + da * 0.01 * height self) with (alt_c_y self subs) in Ha.
  rewrite <- PyFacts.le_le_spec in Hs, Ha.
  split; [| split; [| split]].
  - intros [H1 H2].
    assert (Hin : Py.le_le (panel_top self) (va_c_y self subs) (panel_bottom self) = true)
      by (apply Hs; split; lra).
    rewrite Hin. reflexivity.
  - intros Hout.
    destruct (Py.le_le (panel_top self) (va_c_y self subs) (panel_bottom self));
      [| reflexivity].
    destruct (proj1 Hs eq_refl) as [H1 H2]. exfalso. destruct Hout; lra.
  - intros [H1 H2].
    assert (Hin : Py.le_le (panel_top self) (alt_c_y self subs) (panel_bottom self) = true)
      by (apply Ha; split; lra).
    rewrite Hin. reflexivity.
  - intros Hout.
    destruct (Py.le_le (panel_top self) (alt_c_y self subs) (panel_bottom self));
      [| reflexivity].
    destruct (proj1 Ha eq_refl) as [H1 H2]. exfalso. destruct Hout; lra.
Qed.

(** At the snapshot [commanded_near_and_far] the commanded speed is 25 below
    the speed, and its triangle is drawn; the commanded altitude is 40 above
    the altitude (the difference is -40), and no triangle is drawn for it. *)
Lemma commanded_markers_within_29_not_beyond_31_witness :
  let self := fst (drawArtificialHorizon initUI commanded_near_and_far) in
  concom_enabled (concom commanded_near_and_far) = true
  /\ (0 < height self)%Z
  /\ (Z.abs (speed self) <= 2 ^ 53)%Z /\ (Z.abs (altitude self) <= 2 ^ 53)%Z
  /\ filter is_convex_polygon (drawAirspeedIndicator self commanded_near_and_far)
     = [speed_triangle self (va_c_y self commanded_near_and_far)]
  /\ filter is_convex_polygon (drawAltitudeIndicator self commanded_near_and_far) = [].
Proof.
  intros self.
  assert (He : concom_enabled (concom commanded_near_and_far) = true) by reflexivity.
  assert (Hh : (0 < height self)%Z) by reflexivity.
  assert (Hs : (Z.abs (speed self) <= 2 ^ 53)%Z) by (vm_compute; discriminate).
  assert (Ha : (Z.abs (altitude self) <= 2 ^ 53)%Z) by (vm_compute; discriminate).
  destruct (commanded_markers_within_29_not_beyond_31 self commanded_near_and_far He Hh Hs Ha)
    as (Hnear & _ & _ & Hfar).
  split; [exact He |]. split; [exact Hh |]. split; [exact Hs |]. split; [exact Ha |].
  split.
  - apply Hnear. vm_compute. split; discriminate.
  - apply Hfar. left. vm_compute. discriminate.
Defined.

(** ** Battery monitor *)

Module BatteryFacts.




End BatteryFacts.



(** ** The redraw and the world transform *)

Module RedrawFacts.
Import PainterFacts.

Lemma airspeed_no_transform (self : ArtificialHorizon) (subs : Subscribers) :
  no_transform (drawAirspeedIndicator self subs) = true.
Proof.
  rewrite ChannelFacts.drawAirspeedIndicator_split. unfold airspeed_scale.
  rewrite !no_transform_app, no_transform_flat_map.
  - rewrite MarkerFacts.airspeed_command_spec.
    destruct (concom_enabled (concom subs)); [| reflexivity].
    destruct (Py.le_le _ _ _); reflexivity.
  - intros i. unfold airspeed_tick. destruct (_ && _)%bool; reflexivity.
Qed.

Lemma altitude_no_transform (self : ArtificialHorizon) (subs : Subscribers) :
  no_transform (drawAltitudeIndicator self subs) = true.
Proof.
  rewrite ChannelFacts.drawAltitudeIndicator_split. unfold altitude_scale.
  rewrite !no_transform_app, no_transform_flat_map.
  - rewrite MarkerFacts.altitude_command_spec.
    destruct (concom_enabled (concom subs)); [| reflexivity].
    destruct (Py.le_le _ _ _); reflexivity.
  - intros i. unfold altitude_tick. destruct (_ =? _)%Z; reflexivity.
Qed.

Lemma heading_no_transform (self : ArtificialHorizon) :
  no_transform (drawHeadingIndicator self) = true.
Proof.
  unfold drawHeadingIndicator.
  rewrite !no_transform_app, no_transform_flat_map; [reflexivity |].
  intros i. unfold heading_tick. destruct (_ =? _)%Z; reflexivity.
Qed.

(** No overlay moves or turns the coordinate system. *)
Lemma screen_overlays_no_transform (self : ArtificialHorizon) (subs : Subscribers) :
  no_transform (screen_overlays self subs) = true.
Proof.
  unfold screen_overlays.
  rewrite !no_transform_app.
  rewrite airspeed_no_transform, altitude_no_transform, heading_no_transform.
  assert (Hs : no_transform (drawNumSatellites self) = true)
    by (unfold drawNumSatellites; destruct (_ <? _)%Z; reflexivity).
  assert (Hb : no_transform (drawBatteryMonitor self subs) = true)
    by (unfold drawBatteryMonitor; destruct (battery_enabled _); reflexivity).
  rewrite Hs, Hb. reflexivity.
Qed.

End RedrawFacts.

(** X10.  On a viewport of even width and height a redraw leaves the
    coordinate system of the painter as it found it.  The sky and the
    overlays issue no [translate] and no [rotate]; the world transform after
    [paintEvent] is the one before it; and at every point of the overlays
    (aircraft symbol, tapes, satellite count, battery) the world transform is
    the one the painter had when the redraw began, so that none of them is
    rolled or pitched.  (On an odd size the floor division of [width / 2]
    leaves the overlays shifted.) *)
Theorem redraw_restores_world_transform
        (self : ArtificialHorizon) (subs : Subscribers) (painter : QPainter) :
  Z.even (width self) = true -> Z.even (height self) = true ->
  let self' := fst (paintEvent self subs painter) in
  worldTransform (snd (paintEvent self subs painter)) = worldTransform painter
  /\ no_transform (drawSky self') = true
  /\ no_transform (screen_overlays self' subs) = true
  /\ (forall done rest,
         screen_overlays self' subs = done ++ rest ->
         worldTransform
           (run (drawSky self' ++ frame_entry_to_exit self' subs ++ done) painter)
         = worldTransform painter).
Proof.
  intros Hw Hh. cbv zeta. simpl fst. simpl snd.
  set (self' := extract self subs).
  assert (Hprefix : forall done rest,
             screen_overlays self' subs = done ++ rest ->
             worldTransform
               (run (drawSky self' ++ frame_entry_to_exit self' subs ++ done) painter)
             = worldTransform painter).
  { intros done rest Hsplit.
    pose proof (RedrawFacts.screen_overlays_no_transform self' subs) as Hn.
    rewrite Hsplit, PainterFacts.no_transform_app in Hn.
    apply andb_true_iff in Hn. destruct Hn as [Hdone _].
    rewrite PainterFacts.run_worldTransform, !PainterFacts.transform_of_app.
    rewrite (PainterFacts.transform_of_no_transform _ Hdone).
    rewrite (FrameFacts.frame_entry_to_exit_transform self' subs _ Hw Hh).
    apply PainterFacts.transform_of_no_transform. reflexivity. }
  split.
  - unfold draw. apply (Hprefix (screen_overlays self' subs) []).
    symmetry. apply app_nil_r.
  - split; [reflexivity |].
    split; [apply RedrawFacts.screen_overlays_no_transform | exact Hprefix].
Qed.

(** On the default viewport of 600 by 600. *)
Lemma redraw_restores_world_transform_witness :
  Z.even (width initUI) = true /\ Z.even (height initUI) = true
  /\ worldTransform (snd (paintEvent initUI commanded_near_and_far sample_painter))
     = worldTransform sample_painter.
Proof.
  assert (Hw : Z.even (width initUI) = true) by reflexivity.
  assert (Hh : Z.even (height initUI) = true) by reflexivity.
  split; [exact Hw |]. split; [exact Hh |].
  exact (proj1 (redraw_restores_world_transform initUI commanded_near_and_far
                  sample_painter Hw Hh)).
Defined.

(** ** Turn indicator *)

Module TurnFacts.
Import PainterFacts.

Lemma drawTurnIndicator_split (self : ArtificialHorizon) :
  drawTurnIndicator self
  = turn_arc self ++ flat_map (turn_tick self) angles
    ++ rotate_about (turn_xCenter self) (turn_yCenter self) (roll self)
    ++ [turn_pointer self]
    ++ rotate_about (turn_xCenter self) (turn_yCenter self) (- roll self).
Proof. reflexivity. Qed.

Lemma turn_tick_transform (self : ArtificialHorizon) (angle : Z) (m : QTransform) :
  transform_of (turn_tick self angle) m = m.
Proof. apply rotate_about_inverse. reflexivity. Qed.

Lemma turn_ticks_transform (self : ArtificialHorizon) (l : list Z) (m : QTransform) :
  transform_of (flat_map (turn_tick self) l) m = m.
Proof. apply FrameFacts.transform_of_flat_map. apply turn_tick_transform. Qed.

Lemma linear_translate (dx dy : R) (m : QTransform) :
  linear (transform_translate dx dy m) = linear m.
Proof. reflexivity. Qed.

Lemma linear_rotate_ext (a : Z) (m m' : QTransform) :
  linear m = linear m' -> linear (transform_rotate a m) = linear (transform_rotate a m').
Proof.
  unfold linear, transform_rotate. simpl. intros H. inversion H. reflexivity.
Qed.

Lemma linear_no_transform (t : Trace) (m : QTransform) :
  no_transform t = true -> linear (transform_of t m) = linear m.
Proof. intros H. rewrite (transform_of_no_transform t H). reflexivity. Qed.

(** A rotation about a centre turns directions as the plain rotation does. *)
Lemma linear_rotate_about (xc yc : Q) (a : Z) (m : QTransform) :
  linear (transform_of (rotate_about xc yc a) m) = linear (transform_rotate a m).
Proof. unfold rotate_about, transform_of. simpl. apply linear_rotate_ext. reflexivity. Qed.

End TurnFacts.

(** X11.  The turn indicator undoes each of its rotations before the next
    one.  After the arc and any number of ticks, the tick of angle [a] is
    drawn in the frame the painter had on entry turned by [a] about the
    centre of the arc, never by a sum of angles; the labels of the ticks are
    the decimals of the eleven angles; and when the indicator returns the
    world transform is the one it found. *)
Theorem turn_indicator_rotations_do_not_accumulate
        (self : ArtificialHorizon) (painter : QPainter) :
  worldTransform (run (drawTurnIndicator self) painter) = worldTransform painter
  /\ (forall before a,
         worldTransform
           (run (turn_arc self ++ flat_map (turn_tick self) before
                 ++ [ translate (turn_xCenter self) (turn_yCenter self); rotate a;
                      translate (- turn_xCenter self) (- turn_yCenter self) ]) painter)
         = transform_translate (Q2R (- turn_xCenter self)) (Q2R (- turn_yCenter self))
             (transform_rotate a
                (transform_translate (Q2R (turn_xCenter self)) (Q2R (turn_yCenter self))
                   (worldTransform painter))))
  /\ drawTurnIndicator self
     = turn_arc self ++ flat_map (turn_tick self) angles
       ++ rotate_about (turn_xCenter self) (turn_yCenter self) (roll self)
       ++ [turn_pointer self]
       ++ rotate_about (turn_xCenter self) (turn_yCenter self) (- roll self)
  /\ drawn_texts (drawTurnIndicator self)
     = ["-60"; "-45"; "-30"; "-20"; "-10"; "0"; "10"; "20"; "30"; "45"; "60"].
Proof.
  split; [| split; [| split]].
  - rewrite PainterFacts.run_worldTransform. apply FrameFacts.drawTurnIndicator_transform.
  - intros before a.
    rewrite PainterFacts.run_worldTransform, !PainterFacts.transform_of_app.
    rewrite (PainterFacts.transform_of_no_transform (turn_arc self) eq_refl).
    rewrite TurnFacts.turn_ticks_transform. reflexivity.
  - apply TurnFacts.drawTurnIndicator_split.
  - reflexivity.
Qed.

(** X12.  The pointer of the turn indicator stays upright.  In the redraw
    the arc and its ticks are painted in a frame turned by [-roll]; the
    pointer is turned back by [roll] about the centre of the arc, so that
    while it is painted the linear part of the world transform is the one the
    painter had before the frame was entered. *)
Theorem turn_pointer_is_painted_upright
        (self : ArtificialHorizon) (subs : Subscribers) (painter : QPainter) :
  let to_arc :=
    enter_roll_pitch self ++ drawGround self ++ drawPitchIndicator self subs
    ++ exit_pitch self ++ turn_arc self in
  let to_pointer :=
    to_arc ++ flat_map (turn_tick self) angles
    ++ rotate_about (turn_xCenter self) (turn_yCenter self) (roll self) in
  linear (worldTransform (run to_arc painter))
  = linear (transform_rotate (- roll self) (worldTransform painter))
  /\ linear (worldTransform (run to_pointer painter)) = linear (worldTransform painter)
  /\ frame_entry_to_exit self subs
     = to_pointer ++ [turn_pointer self]
       ++ rotate_about (turn_xCenter self) (turn_yCenter self) (- roll self)
       ++ exit_roll self.
Proof.
  intros to_arc to_pointer.
  assert (Harc : linear (worldTransform (run to_arc painter))
                 = linear (transform_rotate (- roll self) (worldTransform painter))).
  { unfold to_arc.
    rewrite PainterFacts.run_worldTransform, !PainterFacts.transform_of_app.
    rewrite (PainterFacts.transform_of_no_transform (turn_arc self) eq_refl).
    rewrite (PainterFacts.transform_of_no_transform _ (FrameFacts.drawGround_no_transform self)).
    rewrite (PainterFacts.transform_of_no_transform
               _ (FrameFacts.drawPitchIndicator_no_transform self subs)).
    unfold exit_pitch, enter_roll_pitch, transform_of. simpl.
    rewrite !TurnFacts.linear_translate.
    apply TurnFacts.linear_rotate_ext. reflexivity. }
  split; [exact Harc |]. split.
  - unfold to_pointer.
    rewrite PainterFacts.run_app, PainterFacts.run_worldTransform.
    rewrite PainterFacts.transform_of_app, TurnFacts.turn_ticks_transform.
    rewrite TurnFacts.linear_rotate_about.
    rewrite (TurnFacts.linear_rotate_ext (roll self) _ _ Harc).
    rewrite PainterFacts.rotate_inverse by lia. reflexivity.
  - unfold to_pointer, to_arc, frame_entry_to_exit.
    rewrite TurnFacts.drawTurnIndicator_split.
    rewrite <- !app_assoc. reflexivity.
Qed.

(** ** Pens and brushes *)

Module RenderFacts.
Import PainterFacts.

Lemma pen_after_app (pn : QPen) (t1 t2 : Trace) :
  pen_after pn (t1 ++ t2) = pen_after (pen_after pn t1) t2.
Proof. apply fold_left_app. Qed.

Lemma brush_after_app (b : QBrush) (t1 t2 : Trace) :
  brush_after b (t1 ++ t2) = brush_after (brush_after b t1) t2.
Proof. apply fold_left_app. Qed.

Lemma render_app (t1 t2 : Trace) :
  forall pn b,
    render pn b (t1 ++ t2)
    = render pn b t1 ++ render (pen_after pn t1) (brush_after b t1) t2.
Proof.
  induction t1 as [| c t1 IH]; intros pn b; [reflexivity |].
  destruct c; simpl; rewrite IH; reflexivity.
Qed.

(** Running a trace: what is painted, and the pen and brush left. *)
Lemma run_render (t : Trace) :
  forall p,
    painted (run t p) = painted p ++ render (pen p) (brush p) t
    /\ pen (run t p) = pen_after (pen p) t
    /\ brush (run t p) = brush_after (brush p) t.
Proof.
  induction t as [| c t IH]; intros p.
  - simpl. rewrite app_nil_r. repeat split.
  - change (run (c :: t) p) with (run t (step p c)).
    destruct (IH (step p c)) as (Hp & Hn & Hb). rewrite Hp, Hn, Hb.
    destruct c; simpl; rewrite <- ?app_assoc; repeat split.
Qed.

Lemma only_paints_flat_map (A : Type) (f : A -> Trace) (l : list A) :
  (forall a, only_paints (f a) = true) -> only_paints (flat_map f l) = true.
Proof.
  intros Hf. induction l as [| a l IH]; [reflexivity |].
  simpl. unfold only_paints. rewrite forallb_app.
  fold (only_paints (f a)). fold (only_paints (flat_map f l)).
  rewrite Hf, IH. reflexivity.
Qed.

Lemma render_only_paints (t : Trace) (pn : QPen) (b : QBrush) :
  only_paints t = true ->
  render pn b t = map (fun c => mkPainted c pn b) t
  /\ pen_after pn t = pn /\ brush_after b t = b.
Proof.
  induction t as [| c t IH]; intros H; [repeat split |].
  simpl in H. apply andb_true_iff in H. destruct H as [Hc Ht].
  destruct (IH Ht) as (Hr & Hn & Hb).
  destruct c; try discriminate; simpl; rewrite Hr; repeat split; assumption.
Qed.

Lemma pitch_ladder_only_paints (self : ArtificialHorizon) :
  only_paints (pitch_ladder self) = true.
Proof.
  apply only_paints_flat_map. intros i. unfold major_marker, minor_marker.
  destruct (in_window self (major_height self i));
    destruct (in_window self (minor_height self i)); reflexivity.
Qed.

Lemma command_marker_only_paints (self : ArtificialHorizon) (subs : Subscribers) :
  only_paints (command_marker self subs) = true.
Proof. unfold command_marker. destruct (in_window _ _); reflexivity. Qed.

End RenderFacts.

(** X14.  The pens of the pitch indicator.  The ladder is painted with
    whatever pen the painter holds on entry: [drawPitchIndicator] sets none
    before it.  With the commanded pitch enabled its marker is painted with
    the yellow pen of width 4 and the pen is then set to the white pen of
    width 2, whatever the pen was on entry; with the channel disabled the pen
    is left alone.  The brush is never changed.  In the redraw the pen on
    entry is that white pen, set by [drawGround]. *)
Theorem pitch_indicator_pens
        (self : ArtificialHorizon) (subs : Subscribers) (painter : QPainter) :
  painted (run (drawPitchIndicator self subs) painter)
  = painted painter
    ++ map (fun c => mkPainted c (pen painter) (brush painter)) (pitch_ladder self)
    ++ (if conin_enabled (conin subs)
        then map (fun c => mkPainted c command_pen (brush painter)) (command_marker self subs)
        else [])
  /\ pen (run (drawPitchIndicator self subs) painter)
     = (if conin_enabled (conin subs) then ladder_pen else pen painter)
  /\ brush (run (drawPitchIndicator self subs) painter) = brush painter
  /\ pen (run (drawSky self ++ enter_roll_pitch self ++ drawGround self) painter)
     = ladder_pen.
Proof.
  destruct (RenderFacts.run_render (drawPitchIndicator self subs) painter) as (Hp & Hn & Hb).
  rewrite Hp, Hn, Hb. clear Hp Hn Hb.
  rewrite ChannelFacts.drawPitchIndicator_split.
  rewrite RenderFacts.render_app, RenderFacts.pen_after_app, RenderFacts.brush_after_app.
  destruct (RenderFacts.render_only_paints (pitch_ladder self) (pen painter) (brush painter)
              (RenderFacts.pitch_ladder_only_paints self)) as (Hr & Hn & Hb).
  rewrite Hr, Hn, Hb.
  unfold pitch_command.
  destruct (conin_enabled (conin subs)).
  - rewrite RenderFacts.render_app, RenderFacts.pen_after_app, RenderFacts.brush_after_app.
    rewrite RenderFacts.render_app, RenderFacts.pen_after_app, RenderFacts.brush_after_app.
    simpl pen_after at 2. simpl brush_after at 2.
    destruct (RenderFacts.render_only_paints (command_marker self subs) command_pen
                (brush painter) (RenderFacts.command_marker_only_paints self subs))
      as (Hr' & Hn' & Hb').
    simpl render at 2.
    change (pen_after (pen painter) [setPen command_pen]) with command_pen.
    change (brush_after (brush painter) [setPen command_pen]) with (brush painter).
    rewrite Hr', Hn', Hb'. simpl. rewrite app_nil_r. repeat split.
  - simpl. rewrite app_nil_r. repeat split.
Qed.

Module MarkerBrushFacts.
Import RenderFacts.

Lemma draw_split (self : ArtificialHorizon) (subs : Subscribers) :
  draw self subs
  = before_speed_marker self subs ++ airspeed_command self subs
    ++ between_markers self ++ altitude_command self subs
    ++ after_altitude_marker self subs.
Proof.
  unfold draw, screen_overlays, before_speed_marker, between_markers, after_altitude_marker.
  rewrite ChannelFacts.drawAirspeedIndicator_split, ChannelFacts.drawAltitudeIndicator_split.
  rewrite <- !app_assoc. reflexivity.
Qed.

Lemma command_is_convex (self : ArtificialHorizon) (subs : Subscribers) :
  filter is_convex_polygon (airspeed_command self subs) = airspeed_command self subs
  /\ filter is_convex_polygon (altitude_command self subs) = altitude_command self subs
  /\ only_paints (airspeed_command self subs) = true
  /\ only_paints (altitude_command self subs) = true.
Proof.
  rewrite MarkerFacts.airspeed_command_spec, MarkerFacts.altitude_command_spec.
  destruct (concom_enabled (concom subs)); [| repeat split].
  destruct (Py.le_le _ (va_c_y self subs) _);
    destruct (Py.le_le _ (alt_c_y self subs) _); repeat split.
Qed.

(** Outside the two commanded markers the redraw has no convex polygon. *)
Lemma no_convex_elsewhere (self : ArtificialHorizon) (subs : Subscribers) :
  filter is_convex_polygon (before_speed_marker self subs) = []
  /\ filter is_convex_polygon (between_markers self) = []
  /\ filter is_convex_polygon (after_altitude_marker self subs) = [].
Proof.
  pose proof (ChannelFacts.frame_convex self subs) as H.
  rewrite draw_split, !filter_app in H.
  destruct (command_is_convex self subs) as (Hs & Ha & _ & _).
  rewrite Hs, Ha in H.
  apply (f_equal (@List.length PainterCall)) in H.
  rewrite !length_app in H.
  repeat split; apply length_zero_iff_nil; lia.
Qed.

Lemma convex_render (t : Trace) :
  forall pn b,
    map painted_call (convex_painted (render pn b t)) = filter is_convex_polygon t.
Proof.
  induction t as [| c t IH]; intros pn b; [reflexivity |].
  destruct c; simpl; rewrite ?IH; reflexivity.
Qed.

Lemma convex_render_nil (t : Trace) (pn : QPen) (b : QBrush) :
  filter is_convex_polygon t = [] -> convex_painted (render pn b t) = [].
Proof.
  intros H. apply map_eq_nil with (f := painted_call).
  rewrite convex_render. exact H.
Qed.

Lemma airspeed_ticks_only_paint (self : ArtificialHorizon) :
  only_paints (flat_map (airspeed_tick self) (Py.range (speed self - 29) (speed self + 29)))
  = true.
Proof.
  apply only_paints_flat_map. intros i. unfold airspeed_tick.
  destruct (_ && _)%bool; reflexivity.
Qed.

Lemma altitude_ticks_only_paint (self : ArtificialHorizon) :
  only_paints (flat_map (altitude_tick self)
                        (Py.range (altitude self - 29) (altitude self + 29)))
  = true.
Proof.
  apply only_paints_flat_map. intros i. unfold altitude_tick.
  destruct (_ =? _)%Z; reflexivity.
Qed.

(** The pen and brush in force when the speed triangle is painted. *)
Lemma state_before_speed_marker
      (self : ArtificialHorizon) (subs : Subscribers) (pn : QPen) (b : QBrush) :
  pen_after pn (before_speed_marker self subs) = tape_pen
  /\ brush_after b (before_speed_marker self subs) = aircraft_brush.
Proof.
  unfold before_speed_marker, airspeed_scale.
  rewrite !pen_after_app, !brush_after_app.
  destruct (render_only_paints _ tape_pen
              (brush_after (brush_after (brush_after b (drawSky self))
                                        (frame_entry_to_exit self subs))
                           (drawAircraftSymbol self))
              (airspeed_ticks_only_paint self)) as (_ & Hn & Hb).
  split.
  - exact Hn.
  - match goal with
    | |- brush_after (brush_after ?x [?c1; ?c2]) ?t = _ =>
        change (brush_after (brush_after x [c1; c2]) t) with (brush_after x t)
    end.
    rewrite Hb. reflexivity.
Qed.

(** The pen and brush in force when the altitude triangle is painted. *)
Lemma state_between_markers (self : ArtificialHorizon) (pn : QPen) (b : QBrush) :
  pen_after pn (between_markers self) = tape_pen
  /\ brush_after b (between_markers self) = altitude_marker_brush.
Proof.
  unfold between_markers, altitude_scale.
  rewrite !pen_after_app, !brush_after_app.
  destruct (render_only_paints _ tape_pen
              (brush_after b (airspeed_pointer self))
              (altitude_ticks_only_paint self)) as (_ & Hn & _).
  split.
  - simpl. exact Hn.
  - reflexivity.
Qed.

Lemma convex_painted_app (l1 l2 : list Painted) :
  convex_painted (l1 ++ l2) = convex_painted l1 ++ convex_painted l2.
Proof. apply filter_app. Qed.

Lemma convex_painted_render_app (pn : QPen) (b : QBrush) (t1 t2 : Trace) :
  convex_painted (render pn b (t1 ++ t2))
  = convex_painted (render pn b t1)
    ++ convex_painted (render (pen_after pn t1) (brush_after b t1) t2).
Proof. rewrite render_app. apply convex_painted_app. Qed.

(** A commanded marker is painted as it is, and changes neither pen nor
    brush. *)
Lemma convex_painted_command (pn : QPen) (b : QBrush) (t : Trace) :
  filter is_convex_polygon t = t -> only_paints t = true ->
  convex_painted (render pn b t) = map (fun c => mkPainted c pn b) t
  /\ pen_after pn t = pn /\ brush_after b t = b.
Proof.
  intros Hc Ho. destruct (render_only_paints t pn b Ho) as (Hr & Hn & Hb).
  split; [| split; assumption].
  rewrite Hr. unfold convex_painted. rewrite <- Hc at 2. clear.
  induction t as [| c t IH]; [reflexivity |].
  simpl. destruct (is_convex_polygon c); simpl; rewrite IH; reflexivity.
Qed.

End MarkerBrushFacts.

(** X13.  What the commanded triangles are painted with.  In a redraw the
    only convex polygons painted are the two commanded markers, in that
    order.  Both are outlined with the yellow pen of width 2 that their tape
    sets.  The altitude triangle is filled with the yellow brush its tape
    sets just before it (line 268); the speed tape sets no brush, and its
    triangle is filled with the brush [drawAircraftSymbol], called just
    before the tape, left behind. *)
Theorem commanded_triangles_pen_and_brush
        (self : ArtificialHorizon) (subs : Subscribers) (painter : QPainter) :
  let self' := fst (paintEvent self subs painter) in
  convex_painted (painted (snd (paintEvent self subs painter)))
  = convex_painted (painted painter)
    ++ map (fun c => mkPainted c tape_pen aircraft_brush) (airspeed_command self' subs)
    ++ map (fun c => mkPainted c tape_pen altitude_marker_brush)
           (altitude_command self' subs).
Proof.
  cbv zeta. unfold paintEvent, drawArtificialHorizon. cbn [fst snd].
  set (self' := extract self subs).
  destruct (RenderFacts.run_render (draw self' subs) painter) as (Hp & _ & _).
  rewrite Hp. clear Hp.
  rewrite MarkerBrushFacts.convex_painted_app. f_equal.
  rewrite MarkerBrushFacts.draw_split.
  destruct (MarkerBrushFacts.no_convex_elsewhere self' subs) as (H1 & H2 & H3).
  destruct (MarkerBrushFacts.command_is_convex self' subs) as (Hcs & Hca & Hos & Hoa).
  rewrite MarkerBrushFacts.convex_painted_render_app.
  rewrite (MarkerBrushFacts.convex_render_nil _ _ _ H1), app_nil_l.
  destruct (MarkerBrushFacts.state_before_speed_marker self' subs (pen painter) (brush painter))
    as (Hn1 & Hb1).
  rewrite Hn1, Hb1.
  rewrite MarkerBrushFacts.convex_painted_render_app.
  destruct (MarkerBrushFacts.convex_painted_command tape_pen aircraft_brush _ Hcs Hos)
    as (Hr & Hn & Hb).
  rewrite Hr, Hn, Hb. f_equal.
  rewrite MarkerBrushFacts.convex_painted_render_app.
  rewrite (MarkerBrushFacts.convex_render_nil _ _ _ H2), app_nil_l.
  destruct (MarkerBrushFacts.state_between_markers self' tape_pen aircraft_brush)
    as (Hn2 & Hb2).
  rewrite Hn2, Hb2.
  rewrite MarkerBrushFacts.convex_painted_render_app.
  destruct (MarkerBrushFacts.convex_painted_command tape_pen altitude_marker_brush _ Hca Hoa)
    as (Hr' & Hn' & Hb').
  rewrite Hr', Hn', Hb'.
  rewrite (MarkerBrushFacts.convex_render_nil _ _ _ H3). apply app_nil_r.
Qed.

(** ** The centre of the display *)

Module CentreFacts.

Lemma heading_texts (self : ArtificialHorizon) :
  drawn_texts (flat_map (heading_tick self) (Py.range (heading self - 49) (heading self + 49)))
  = map (fun i => heading_text (wrap360 i)) (heading_ticks self).
Proof.
  rewrite HeadingFacts.heading_loop, TraceFacts.drawn_texts_flat_map.
  apply TickFacts.flat_map_singleton.
Qed.

(** On an even size the floored half is the half. *)
Lemma even_half (w : Z) : Z.even w = true -> Q2R (w / 2)%Z = Q2R (w / 2).
Proof.
  intros He. apply Qeq_eqR.
  pose proof (Zmod_even w) as Hm. rewrite He in Hm.
  rewrite (Z_div_exact_full_2 w 2) at 2 by (lia || exact Hm).
  rewrite inject_Z_mult. change (inject_Z 2) with 2. field.
Qed.

Lemma current_pitch_height (self : ArtificialHorizon) :
  (Q2R (height self * (0.5 - pitchInterval self * pitch self))%Q
   + Q2R (height self * (pitch self * pitchInterval self))%Q)%R
  = Q2R (height self / 2).
Proof.
  rewrite <- Q2R_plus. apply Qeq_eqR. field.
Qed.

End CentreFacts.

(** X15.  The tick of the current value sits at the centre of its tape.
    When the heading is a multiple of 10 the heading tape draws a tick at
    [x = width*0.5], labelled with the heading (or its compass point); when
    the altitude is a multiple of 10 the altitude tape draws a tick at
    [y = height*0.5]; and so does the speed tape when the speed is a
    non-negative multiple of 10. *)
Theorem current_value_tick_is_centred (self : ArtificialHorizon) (subs : Subscribers) :
  ((heading self mod 10 = 0)%Z ->
   exists x y, In (x, y, x, y + 5) (drawn_lines (drawHeadingIndicator self))
               /\ x == width self * 0.5
               /\ In (heading_text (wrap360 (heading self)))
                     (drawn_texts (flat_map (heading_tick self)
                                            (Py.range (heading self - 49) (heading self + 49)))))
  /\ ((altitude self mod 10 = 0)%Z ->
      exists x y, In (x, y, x + 5, y) (drawn_lines (drawAltitudeIndicator self subs))
                  /\ y == height self * 0.5)
  /\ ((speed self mod 10 = 0)%Z -> (0 <= speed self)%Z ->
      exists x y, In (x - 5, y, x, y) (drawn_lines (drawAirspeedIndicator self subs))
                  /\ y == height self * 0.5).
Proof.
  split; [| split].
  - intros Hm.
    assert (Hi : In (heading self) (heading_ticks self))
      by (apply TapeFacts.In_heading_ticks; lia).
    exists (heading_tick_x self (heading self)), (height self - height self * 0.1).
    split; [| split].
    + rewrite TickFacts.heading_lines. apply in_map_iff.
      exists (heading self). split; [reflexivity | exact Hi].
    + unfold heading_tick_x. rewrite Z.sub_diag. change (inject_Z 0) with 0. ring.
    + rewrite CentreFacts.heading_texts. apply in_map_iff.
      exists (heading self). split; [reflexivity | exact Hi].
  - intros Hm.
    assert (Hi : In (altitude self) (altitude_ticks self))
      by (apply TapeFacts.In_altitude_ticks; lia).
    exists (width self - width self * 0.13),
      (height self * 0.5 + ((altitude self - altitude self)%Z * 0.01 * height self)).
    split.
    + rewrite TickFacts.altitude_lines. apply in_map_iff.
      exists (altitude self). split; [reflexivity | exact Hi].
    + rewrite Z.sub_diag. change (inject_Z 0) with 0. ring.
  - intros Hm H0.
    assert (Hi : In (speed self) (airspeed_ticks self))
      by (apply TapeFacts.In_airspeed_ticks; lia).
    exists (width self * 0.13),
      (height self * 0.5 + ((speed self - speed self)%Z * 0.01 * height self)).
    split.
    + rewrite TickFacts.airspeed_lines. apply in_map_iff.
      exists (speed self). split; [reflexivity | exact Hi].
    + rewrite Z.sub_diag. change (inject_Z 0) with 0. ring.
Qed.

(** At heading 270 the tape has a tick at its centre, labelled W. *)
Lemma current_value_tick_is_centred_witness :
  let self := with_telemetry initUI 0 0 120 1500 270 6 in
  (heading self mod 10 = 0)%Z
  /\ (exists x y, In (x, y, x, y + 5) (drawn_lines (drawHeadingIndicator self))
                  /\ x == width self * 0.5
                  /\ In "W" (drawn_texts
                               (flat_map (heading_tick self)
                                         (Py.range (heading self - 49) (heading self + 49))))).
Proof.
  intros self.
  assert (Hm : (heading self mod 10 = 0)%Z) by reflexivity.
  split; [exact Hm |].
  exact (proj1 (current_value_tick_is_centred self no_channels) Hm).
Defined.

(** X16.  The ladder is read at the centre of the viewport.  On a viewport
    of even width and height, inside the rolled and pitched frame, the point
    of the ladder that stands for the current pitch,
    [(width/2, height*(0.5 - pitchInterval*pitch))], is sent to where the
    painter sent the centre of the viewport before the frame was entered,
    whatever the roll; when the pitch is [10*i] degrees this is the height of
    the major line of rung [i]. *)
Theorem current_pitch_is_at_viewport_centre (self : ArtificialHorizon) (painter : QPainter) :
  Z.even (width self) = true -> Z.even (height self) = true ->
  map_point (worldTransform (run (enter_roll_pitch self) painter))
            (Q2R (width self / 2))
            (Q2R (height self * (0.5 - pitchInterval self * pitch self)))
  = map_point (worldTransform painter) (Q2R (width self / 2)) (Q2R (height self / 2))
  /\ (forall i, pitch self = (10 * i)%Z ->
                major_height self i == 0.5 - pitchInterval self * pitch self).
Proof.
  intros Hw Hh. split.
  - rewrite PainterFacts.run_worldTransform.
    unfold enter_roll_pitch, transform_of. simpl.
    rewrite (FrameFacts.half_opp _ Hw), (FrameFacts.half_opp _ Hh).
    rewrite (CentreFacts.even_half _ Hw), (CentreFacts.even_half _ Hh).
    rewrite <- (CentreFacts.current_pitch_height self).
    replace (Q2R 0) with 0%R by (symmetry; apply RMicromega.Q2R_0).
    destruct (worldTransform painter) as [a11 a12 a21 a22 e f].
    unfold map_point, transform_translate, transform_rotate. simpl.
    f_equal; ring.
  - intros i Hp. rewrite Hp. apply DegreeFacts.major_height_degrees.
Qed.

(** On the default viewport, banked by 30 degrees and pitched up by 20: the
    point of the ladder for 20 degrees is sent to the centre (300, 300) of
    the viewport. *)
Lemma current_pitch_is_at_viewport_centre_witness :
  let self := with_telemetry initUI 30 20 0 0 0 0 in
  Z.even (width self) = true /\ Z.even (height self) = true
  /\ map_point (worldTransform (run (enter_roll_pitch self) sample_painter))
               (Q2R (width self / 2))
               (Q2R (height self * (0.5 - pitchInterval self * pitch self)))
     = map_point (worldTransform sample_painter)
                 (Q2R (width self / 2)) (Q2R (height self / 2)).
Proof.
  intros self.
  assert (Hw : Z.even (width self) = true) by reflexivity.
  assert (Hh : Z.even (height self) = true) by reflexivity.
  split; [exact Hw |]. split; [exact Hh |].
  exact (proj1 (current_pitch_is_at_viewport_centre self sample_painter Hw Hh)).
Defined.
